(** * The data layer of the Bucharest quality-of-life dashboard

    A shallow embedding of [src/services/apiService.ts] (the two provider
    services and the combined [DataService]) and of the summary
    computations of the [BucharestDashboard] component, followed by the
    properties of the index calculation, of the fallback paths and of the
    aggregation.

    Conventions of the embedding.
    - A JavaScript [number] is a rational ([Q]): arithmetic is exact, and
      [NaN] and the infinities are not represented.  Results are compared
      with [==].
    - A field that the code reads defensively ([x || 0], [x?.f]) is an
      [option]; [None] stands for [undefined].
    - An [async] method is a function of the environment (the upstream
      providers and the host functions) and of the world (the requests
      issued so far, the number of random draws), returning a settled
      promise and the new world. *)

From Stdlib Require Import QArith Qround Qminmax Lqa Lia ZArith List String Ascii Bool.
From Stdlib Require Import DecimalString.
Import ListNotations.

Open Scope Q_scope.

(** ** JavaScript primitives *)

Module Js.

Definition number := Q.

(** Truthiness of a possibly absent number: [undefined] and [0] are falsy. *)
Definition truthy (x : option number) : bool :=
  match x with
  | Some v => negb (Qeq_bool v 0)
  | None => false
  end.

(** [x || d] on a possibly absent number. *)
Definition orElse (x : option number) (d : number) : number :=
  match x with
  | Some v => if Qeq_bool v 0 then d else v
  | None => d
  end.

(** The value of a possibly absent number inside an arithmetic expression
    that is only evaluated when the number is truthy. *)
Definition valueOf (x : option number) : number :=
  match x with
  | Some v => v
  | None => 0
  end.

(** [a <= b] and [a > b] on numbers. *)
Definition leb (a b : number) : bool := Qle_bool a b.

Definition gtb (a b : number) : bool := negb (Qle_bool a b).

Definition Math_min (a b : number) : number := Qmin a b.

(** [Math.max(a, b, c)]. *)
Definition Math_max3 (a b c : number) : number := Qmax (Qmax a b) c.

Definition Math_max (a b : number) : number := Qmax a b.

Definition Math_floor (x : number) : number := inject_Z (Qfloor x).

(** [Math.round]: to the nearest integer, halves towards plus infinity. *)
Definition Math_round (x : number) : number := inject_Z (Qfloor (x + (1 # 2))).

(** [s || d] on a possibly absent string: [undefined] and the empty string
    are falsy. *)
Definition strOrElse (s : option string) (d : string) : string :=
  match s with
  | Some EmptyString => d
  | Some v => v
  | None => d
  end.

Definition lowerChar (c : ascii) : ascii :=
  let n := nat_of_ascii c in
  if (65 <=? n)%nat && (n <=? 90)%nat then ascii_of_nat (n + 32) else c.

(** [s.toLowerCase()], on the ASCII letters. *)
Fixpoint toLowerCase (s : string) : string :=
  match s with
  | EmptyString => EmptyString
  | String c t => String (lowerChar c) (toLowerCase t)
  end.

(** [s.includes(needle)]. *)
Fixpoint includes (s needle : string) : bool :=
  String.prefix needle s
  || match s with
     | EmptyString => false
     | String _ t => includes t needle
     end.

(** [s.split(sep)[0]] for a one-character separator. *)
Fixpoint splitHead (sep : ascii) (s : string) : string :=
  match s with
  | EmptyString => EmptyString
  | String c t => if Ascii.eqb c sep then EmptyString else String c (splitHead sep t)
  end.

(** [Array.from({length: n}, (_, i) => i)]. *)
Definition indices (n : nat) : list nat := seq 0 n.

End Js.

Import Js.

(** ** Data model ([src/services/apiService.ts], type definitions) *)

Record Station := mkStation {
  id : Z;
  name : string;
  lat : number;
  lon : number;
  county : string;
  city : option string
}.

Record AirQualityMeasurement := mkMeasurement {
  pm25 : number;
  pm10 : number;
  no2 : number;
  o3 : number;
  so2 : number;
  co : number
}.

Record AirQualityData := mkAirQualityData {
  stationId : Z;
  stationName : string;
  timestamp : string;
  measurements : AirQualityMeasurement;
  aqi : number
}.

Record WeatherData := mkWeatherData {
  w_timestamp : string;
  temperature : number;
  humidity : number;
  windSpeed : number;
  pressure : number;
  uvIndex : number
}.

Record HistoricalDataPoint := mkHistoricalDataPoint {
  date : string;
  h_aqi : number;
  h_pm25 : number;
  h_pm10 : number;
  h_temperature : option number
}.

(** ** Upstream payloads ([response.data], typed [any] in the source) *)

(** A station as listed by the air-quality provider.  A station without a
    name has the empty string for it: the code treats the two alike. *)
Record RawStation := mkRawStation {
  raw_id : Z;
  raw_name : string;
  raw_latitude : string;
  raw_longitude : string;
  raw_county : string;
  raw_city : option string
}.

(** A measurement object of the air-quality provider.  Every pollutant may
    be absent; [raw_aqi] is an index the provider may send along. *)
Record RawMeasurement := mkRawMeasurement {
  raw_pm25 : option number;
  raw_pm10 : option number;
  raw_no2 : option number;
  raw_o3 : option number;
  raw_so2 : option number;
  raw_co : option number;
  raw_aqi : option number
}.

Record RawHistoricalItem := mkRawHistoricalItem {
  item_date : string;
  item_values : RawMeasurement
}.

Record RawWeather := mkRawWeather {
  rw_temperature : number;
  rw_humidity : number;
  rw_windSpeed : number;
  rw_pressure : number;
  rw_uvIndex : option number
}.

Record RawHourly := mkRawHourly {
  rh_time : string;
  rh_temperature : number;
  rh_humidity : number;
  rh_windSpeed : number;
  rh_pressure : number;
  rh_uvIndex : option number
}.

(** A typed reading seen as the object [calculateAQI] receives. *)
Definition ofMeasurement (m : AirQualityMeasurement) : RawMeasurement :=
  mkRawMeasurement (Some (pm25 m)) (Some (pm10 m)) (Some (no2 m))
                   (Some (o3 m)) (Some (so2 m)) (Some (co m)) None.

(** ** Asynchronous computations *)

(** The HTTP calls the two services make. *)
Inductive Request :=
| GetStations
| GetCurrentMeasurement (stationId : Z)
| GetHistoricalMeasurements (stationId : Z) (startDate endDate : string)
| GetCurrentWeather
| GetHourlyForecast.

(** What a call yields: a body, or a failure (network error, rejected
    credentials, expired deadline, a body the caller cannot read) with the
    message the interceptor logs. *)
Inductive Response (A : Type) :=
| Ok (data : A)
| Failed (message : string).

Arguments Ok {A} data.
Arguments Failed {A} message.

(** The providers and the host.  A provider's answer may depend on how many
    requests were issued before, so that two calls of one endpoint can end
    differently. *)
Record Env := mkEnv {
  stationsApi : nat -> Response (list RawStation);
  currentApi : nat -> Z -> Response RawMeasurement;
  historicalApi : nat -> Z -> string -> string -> Response (list RawHistoricalItem);
  currentWeatherApi : nat -> Response RawWeather;
  hourlyForecastApi : nat -> Response (list RawHourly);
  random : nat -> number;        (* the successive values of Math.random() *)
  now : Z;                       (* new Date(), in milliseconds *)
  toISOString : Z -> string;
  getHours : Z -> Z;
  parseFloat : string -> number;
  Math_sin : number -> number;
  Math_PI : number
}.

Record World := mkWorld {
  requests : list Request;       (* in the order they were issued *)
  draws : nat                    (* calls of Math.random() so far *)
}.

Inductive JsError :=
| AxiosError (message : string).

Inductive Settled (A : Type) :=
| Fulfilled (value : A)
| Rejected (error : JsError).

Arguments Fulfilled {A} value.
Arguments Rejected {A} error.

Definition Async (A : Type) : Type := Env -> World -> Settled A * World.

Definition ret {A} (a : A) : Async A := fun _ w => (Fulfilled a, w).

Definition throw {A} (e : JsError) : Async A := fun _ w => (Rejected e, w).

Definition bind {A B} (c : Async A) (k : A -> Async B) : Async B :=
  fun env w =>
    match c env w with
    | (Fulfilled a, w') => k a env w'
    | (Rejected e, w') => (Rejected e, w')
    end.

Notation "x <- c ;; k" := (bind c (fun x => k))
  (at level 61, c at next level, right associativity).

(** [try { body } catch (error) { handler }]. *)
Definition try_catch {A} (body : Async A) (handler : JsError -> Async A) : Async A :=
  fun env w =>
    match body env w with
    | (Fulfilled a, w') => (Fulfilled a, w')
    | (Rejected e, w') => handler e env w'
    end.

Definition ask : Async Env := fun env w => (Fulfilled env, w).

(** [api.get(...)]: the request is issued, and the promise settles with the
    provider's answer. *)
Definition api_get {A} (r : Request) (answer : Env -> nat -> Response A) : Async A :=
  fun env w =>
    let w' := mkWorld (requests w ++ [r]) (draws w) in
    match answer env (List.length (requests w)) with
    | Ok data => (Fulfilled data, w')
    | Failed message => (Rejected (AxiosError message), w')
    end.

Definition Math_random : Async number :=
  fun env w => (Fulfilled (random env (draws w)), mkWorld (requests w) (S (draws w))).

(** Two promises awaited together: both run, and the pair is rejected when
    one of them is.  The tasks awaited together share nothing but the request
    log and the random stream, so running them one after the other yields
    the results of every interleaving; only the number a request gets in the
    log depends on it. *)
Definition both {A B} (p : Async A) (q : Async B) : Async (A * B) :=
  fun env w =>
    let (a, w1) := p env w in
    let (b, w2) := q env w1 in
    (match a, b with
     | Fulfilled x, Fulfilled y => Fulfilled (x, y)
     | Rejected e, _ => Rejected e
     | Fulfilled _, Rejected e => Rejected e
     end, w2).

(** [Promise.all] over an array of promises: the tasks are started in array
    order, every one of them runs, and the result is rejected when one of
    them is. *)
Fixpoint Promise_all {A} (ps : list (Async A)) : Async (list A) :=
  match ps with
  | [] => ret []
  | p :: rest =>
      fun env w =>
        let (pr, w') := both p (Promise_all rest) env w in
        (match pr with
         | Fulfilled (a, l) => Fulfilled (a :: l)
         | Rejected e => Rejected e
         end, w')
  end.

(** [xs.map(f)] and [Array.from] for a callback that draws random numbers. *)
Fixpoint mapA {A B} (f : A -> Async B) (xs : list A) : Async (list B) :=
  match xs with
  | [] => ret []
  | x :: rest => y <- f x ;; ys <- mapA f rest ;; ret (y :: ys)
  end.

(** [results.filter(result => result !== null)]. *)
Fixpoint filterNotNull {A} (results : list (option A)) : list A :=
  match results with
  | [] => []
  | Some a :: rest => a :: filterNotNull rest
  | None :: rest => filterNotNull rest
  end.

Definition msPerDay : Z := 86400000.
Definition msPerHour : Z := 3600000.

(** [date.toISOString().split('T')[0]]. *)
Definition isoDay (env : Env) (t : Z) : string :=
  splitHead "T"%char (toISOString env t).

Definition ofNat (i : nat) : number := inject_Z (Z.of_nat i).

(** ** [CalitateAerService] *)

Module CalitateAerService.

Definition getMockStations : list Station :=
  [ mkStation 1 "Calea Plevnei" (444378 # 10000) (260875 # 10000) "BUCURESTI" None;
    mkStation 2 "Drumul Taberei" (444247 # 10000) (260301 # 10000) "BUCURESTI" None;
    mkStation 3 "Berceni" (443876 # 10000) (261186 # 10000) "BUCURESTI" None;
    mkStation 4 "Titan" (444334 # 10000) (261496 # 10000) "BUCURESTI" None;
    mkStation 5 "Ambasada" (444601 # 10000) (260844 # 10000) "BUCURESTI" None ].

(** The filter of [getStations]. *)
Definition isBucharest (station : RawStation) : bool :=
  String.eqb (raw_county station) "BUCURESTI"
  || match raw_city station with
     | Some c => includes (toLowerCase c) "bucuresti"
     | None => false
     end
  || includes (toLowerCase (raw_name station)) "bucuresti".

Definition toStation (env : Env) (station : RawStation) : Station :=
  {| id := raw_id station;
     name := raw_name station;
     lat := parseFloat env (raw_latitude station);
     lon := parseFloat env (raw_longitude station);
     county := raw_county station;
     city := raw_city station |}.

Definition getStations : Async (list Station) :=
  try_catch
    (stations <- api_get GetStations stationsApi ;;
     env <- ask ;;
     let bucharestStations := filter isBucharest stations in
     ret (map (toStation env) bucharestStations))
    (fun _ => ret getMockStations).

(** Calculate AQI from pollutant concentrations. *)
Definition calculateAQI (measurements : RawMeasurement) : number :=
  let pm25 := raw_pm25 measurements in
  let pm10 := raw_pm10 measurements in
  let no2 := raw_no2 measurements in
  let pm25AQI := if truthy pm25 then Math_min ((valueOf pm25 / (354 # 10)) * 100) 300 else 0 in
  let pm10AQI := if truthy pm10 then Math_min ((valueOf pm10 / 154) * 100) 300 else 0 in
  let no2AQI := if truthy no2 then Math_min ((valueOf no2 / 100) * 100) 300 else 0 in
  Math_round (Math_max3 pm25AQI pm10AQI no2AQI).

(** One element of [getMockAirQuality]'s [stations.map]. *)
Definition mockSample (station : Station) : Async AirQualityData :=
  env <- ask ;;
  r1 <- Math_random ;;
  r2 <- Math_random ;;
  r3 <- Math_random ;;
  r4 <- Math_random ;;
  r5 <- Math_random ;;
  r6 <- Math_random ;;
  r7 <- Math_random ;;
  ret {| stationId := id station;
         stationName := name station;
         timestamp := toISOString env (now env);
         measurements :=
           {| pm25 := Math_floor (r1 * 50) + 10;
              pm10 := Math_floor (r2 * 80) + 20;
              no2 := Math_floor (r3 * 60) + 15;
              o3 := Math_floor (r4 * 120) + 30;
              so2 := Math_floor (r5 * 30) + 5;
              co := Math_floor (r6 * 10) + 2 |};
         aqi := Math_floor (r7 * 150) + 25 |}.

Definition getMockAirQuality : Async (list AirQualityData) :=
  let stations := getMockStations in
  mapA mockSample stations.

(** One element of [getMockHistoricalData]'s [Array.from]. *)
Definition mockHistoricalPoint (i : nat) : Async HistoricalDataPoint :=
  env <- ask ;;
  let date := (now env - (29 - Z.of_nat i) * msPerDay)%Z in
  r1 <- Math_random ;;
  r2 <- Math_random ;;
  r3 <- Math_random ;;
  ret {| date := isoDay env date;
         h_aqi := 50 + Math_sin env (ofNat i * (2 # 10)) * 30 + r1 * 20;
         h_pm25 := 20 + Math_sin env (ofNat i * (3 # 10)) * 15 + r2 * 10;
         h_pm10 := 35 + Math_sin env (ofNat i * (25 # 100)) * 20 + r3 * 15;
         h_temperature := None |}.

Definition getMockHistoricalData : Async (list HistoricalDataPoint) :=
  mapA mockHistoricalPoint (indices 30).

(** The body of the [async] callback of [getCurrentAirQuality], for one
    station. *)
Definition fetchCurrent (stations : list Station) (stationId : Z)
  : Async (option AirQualityData) :=
  try_catch
    (data <- api_get (GetCurrentMeasurement stationId)
                     (fun env n => currentApi env n stationId) ;;
     env <- ask ;;
     ret (Some
       {| stationId := stationId;
          stationName :=
            strOrElse
              (option_map name (find (fun s => Z.eqb (id s) stationId) stations))
              "Unknown";
          timestamp := toISOString env (now env);
          measurements :=
            {| pm25 := orElse (raw_pm25 data) 0;
               pm10 := orElse (raw_pm10 data) 0;
               no2 := orElse (raw_no2 data) 0;
               o3 := orElse (raw_o3 data) 0;
               so2 := orElse (raw_so2 data) 0;
               co := orElse (raw_co data) 0 |};
          aqi := calculateAQI data |}))
    (fun _ => ret None).

(** Get current air quality data for Bucharest stations. *)
Definition getCurrentAirQuality : Async (list AirQualityData) :=
  try_catch
    (stations <- getStations ;;
     let stationIds := map id stations in
     let promises := map (fetchCurrent stations) stationIds in
     results <- Promise_all promises ;;
     ret (filterNotNull results))
    (fun _ => getMockAirQuality).

(** Get historical air quality data for a station. *)
Definition getHistoricalAirQuality (stationId : Z) (startDate endDate : Z)
  : Async (list HistoricalDataPoint) :=
  try_catch
    (env <- ask ;;
     response <- api_get
       (GetHistoricalMeasurements stationId (isoDay env startDate) (isoDay env endDate))
       (fun env n => historicalApi env n stationId (isoDay env startDate) (isoDay env endDate)) ;;
     ret (map (fun item =>
                 {| date := item_date item;
                    h_aqi := calculateAQI (item_values item);
                    h_pm25 := orElse (raw_pm25 (item_values item)) 0;
                    h_pm10 := orElse (raw_pm10 (item_values item)) 0;
                    h_temperature := None |})
              response))
    (fun _ => getMockHistoricalData).

End CalitateAerService.

(** ** [CopernicusService] *)

Module CopernicusService.

Definition getMockWeatherData : Async WeatherData :=
  env <- ask ;;
  let now_ := now env in
  let hour := inject_Z (getHours env now_) in
  r1 <- Math_random ;;
  r2 <- Math_random ;;
  r3 <- Math_random ;;
  r4 <- Math_random ;;
  ret {| w_timestamp := toISOString env now_;
         temperature := 18 + Math_sin env ((hour - 6) * Math_PI env / 12) * 8 + r1 * 2;
         humidity := 45 + r2 * 30;
         windSpeed := 5 + r3 * 10;
         pressure := 1010 + r4 * 20;
         uvIndex := Math_max 0 (Math_sin env ((hour - 6) * Math_PI env / 12) * 8) |}.

(** One element of [getMockHourlyData]'s [Array.from]. *)
Definition mockHour (i : nat) : Async WeatherData :=
  env <- ask ;;
  let time := (now env + Z.of_nat i * msPerHour)%Z in
  r1 <- Math_random ;;
  r2 <- Math_random ;;
  r3 <- Math_random ;;
  r4 <- Math_random ;;
  ret {| w_timestamp := toISOString env time;
         temperature := 18 + Math_sin env ((ofNat i - 6) * Math_PI env / 12) * 8 + r1 * 2;
         humidity := 45 + r2 * 30;
         windSpeed := 5 + r3 * 10;
         pressure := 1010 + r4 * 20;
         uvIndex := Math_max 0 (Math_sin env ((ofNat i - 6) * Math_PI env / 12) * 8) |}.

Definition getMockHourlyData : Async (list WeatherData) :=
  mapA mockHour (indices 24).

(** Get current weather data for Bucharest. *)
Definition getCurrentWeather : Async WeatherData :=
  try_catch
    (data <- api_get GetCurrentWeather currentWeatherApi ;;
     env <- ask ;;
     uv <- (if truthy (rw_uvIndex data)
            then ret (valueOf (rw_uvIndex data))
            else r <- Math_random ;; ret (r * 8)) ;;
     ret {| w_timestamp := toISOString env (now env);
            temperature := rw_temperature data;
            humidity := rw_humidity data;
            windSpeed := rw_windSpeed data;
            pressure := rw_pressure data;
            uvIndex := uv |})
    (fun _ => getMockWeatherData).

(** Get hourly forecast for next 24 hours. *)
Definition getHourlyForecast : Async (list WeatherData) :=
  try_catch
    (response <- api_get GetHourlyForecast hourlyForecastApi ;;
     ret (map (fun item =>
                 {| w_timestamp := rh_time item;
                    temperature := rh_temperature item;
                    humidity := rh_humidity item;
                    windSpeed := rh_windSpeed item;
                    pressure := rh_pressure item;
                    uvIndex := orElse (rh_uvIndex item) 0 |})
              response))
    (fun _ => getMockHourlyData).



(** One element of [getMockHistoricalWeather]'s [Array.from]. *)
Definition mockClimatePoint (i : nat) : Async HistoricalDataPoint :=
env <- ask ;;
let date := (now env - (29 - Z.of_nat i) * msPerDay)%Z in
r <- Math_random ;;
ret {| date := isoDay env date;
       h_aqi := 0;
       h_pm25 := 0;
       h_pm10 := 0;
       h_temperature := Some (15 + Math_sin env (ofNat i * (2 # 10)) * 10 + r * 5) |}.

Definition getMockHistoricalWeather : Async (list HistoricalDataPoint) :=
mapA mockClimatePoint (indices 30).


End CopernicusService.

(** ** [DataService], the combined data service *)

Module DataService.

Record Weather := mkWeather {
  current : WeatherData;
  hourly : list WeatherData
}.

(** The object [getAllDashboardData] returns. *)
Record DashboardData := mkDashboardData {
  airQuality : list AirQualityData;
  weather : Weather;
  stations : list Station;
  historical : list HistoricalDataPoint;
  lastUpdated : Z
}.

Definition getHistoricalData : Async (list HistoricalDataPoint) :=
  env <- ask ;;
  let endDate := now env in
  let startDate := (now env - 30 * msPerDay)%Z in
  try_catch
    (stations <- CalitateAerService.getStations ;;
     (* if (stations.length > 0) ... stations[0].id *)
     match stations with
     | first :: _ =>
         CalitateAerService.getHistoricalAirQuality (id first) startDate endDate
     | [] => CalitateAerService.getMockHistoricalData
     end)
    (fun _ => CalitateAerService.getMockHistoricalData).

Definition getAllDashboardData : Async DashboardData :=
  try_catch
    (settled <- both CalitateAerService.getCurrentAirQuality
               (both CopernicusService.getCurrentWeather
               (both CopernicusService.getHourlyForecast
               (both CalitateAerService.getStations
                     getHistoricalData))) ;;
     let '(airQualityData, (currentWeather, (hourlyForecast,
            (stations, historicalAirQuality)))) := settled in
     env <- ask ;;
     ret {| airQuality := airQualityData;
            weather := {| current := currentWeather; hourly := hourlyForecast |};
            stations := stations;
            historical := historicalAirQuality;
            lastUpdated := now env |})
    (fun error => throw error).

Definition calculateAverageAQI (airQualityData : list AirQualityData) : number :=
  if Nat.eqb (List.length airQualityData) 0 then 0
  else
    let sum := fold_left (fun acc station => acc + aqi station) airQualityData 0 in
    sum / ofNat (List.length airQualityData).

Definition getAQILevel (aqi : number) : string :=
  if leb aqi 50 then "Bună"
  else if leb aqi 100 then "Moderată"
  else if leb aqi 150 then "Nesănătoasă pentru grupuri sensibile"
  else if leb aqi 200 then "Nesănătoasă"
  else "Foarte nesănătoasă".

Definition getAQIColor (aqi : number) : string :=
  if leb aqi 50 then "#4ade80"
  else if leb aqi 100 then "#facc15"
  else if leb aqi 150 then "#fb923c"
  else if leb aqi 200 then "#ef4444"
  else "#991b1b".

End DataService.

(** ** The dashboard component ([BucharestDashboard] and its [AQIGauge]) *)

Module AQIGauge.

Definition getAQIColor (aqi : number) : string :=
  if leb aqi 50 then "#4ade80"
  else if leb aqi 100 then "#facc15"
  else if leb aqi 150 then "#fb923c"
  else if leb aqi 200 then "#ef4444"
  else "#991b1b".

Definition getAQILevel (aqi : number) : string :=
  if leb aqi 50 then "Bună"
  else if leb aqi 100 then "Moderată"
  else if leb aqi 150 then "Nesănătoasă pentru grupuri sensibile"
  else if leb aqi 200 then "Nesănătoasă"
  else "Foarte nesănătoasă".

(** The value of the radial bar: [Math.min(value, 300)]. *)
Definition barValue (value : number) : number := Math_min value 300.

(** The number printed under the bar: [Math.round(value)]. *)
Definition printedValue (value : number) : number := Math_round value.

End AQIGauge.

Module BucharestDashboard.

Record AirQualityStation := mkAirQualityStation {
  station : string;
  pm25 : number;
  pm10 : number;
  no2 : number;
  o3 : number;
  so2 : number;
  aqi : number
}.

(** One element of [generateAirQualityData]'s [stations.map]. *)
Definition generateStation (station : string) : Async AirQualityStation :=
  r1 <- Math_random ;;
  r2 <- Math_random ;;
  r3 <- Math_random ;;
  r4 <- Math_random ;;
  r5 <- Math_random ;;
  r6 <- Math_random ;;
  ret {| station := station;
         pm25 := Math_floor (r1 * 50) + 10;
         pm10 := Math_floor (r2 * 80) + 20;
         no2 := Math_floor (r3 * 60) + 15;
         o3 := Math_floor (r4 * 120) + 30;
         so2 := Math_floor (r5 * 30) + 5;
         aqi := Math_floor (r6 * 150) + 25 |}.

Definition generateAirQualityData : Async (list AirQualityStation) :=
  let stations :=
    ["Calea Plevnei"; "Drumul Taberei"; "Berceni"; "Titan"; "Ambasada"]%string in
  mapA generateStation stations.

Definition averageAQI (airQualityData : list AirQualityStation) : number :=
  if Nat.ltb 0 (List.length airQualityData)
  then fold_left (fun sum station => sum + aqi station) airQualityData 0
       / ofNat (List.length airQualityData)
  else 0.

Definition advisory : string :=
  "Calitatea aerului este nesănătoasă pentru grupuri sensibile. Se recomandă limitarea activităților în exterior.".

Definition alerts (averageAQI : number) : list string :=
  if gtb averageAQI 100 then [] ++ [advisory] else [].

Record WeatherDataPoint := mkWeatherDataPoint {
  hour : string;
  temperature : number;
  humidity : number;
  windSpeed : number;
  pressure : number
}.




(** What [currentWeather] holds: a data point, or the default object, which
    has no [hour]. *)
Record CurrentWeather := mkCurrentWeather {
  cw_hour : option string;
  cw_temperature : number;
  cw_humidity : number;
  cw_windSpeed : number;
  cw_pressure : number
}.

Definition ofPoint (p : WeatherDataPoint) : CurrentWeather :=
{| cw_hour := Some (hour p);
   cw_temperature := temperature p;
   cw_humidity := humidity p;
   cw_windSpeed := windSpeed p;
   cw_pressure := pressure p |}.

Definition defaultWeather : CurrentWeather :=
{| cw_hour := None;
   cw_temperature := 20;
   cw_humidity := 65;
   cw_windSpeed := 8;
   cw_pressure := 1015 |}.

(** [weatherData.length > 0 ? weatherData[weatherData.length - 1] : {...}];
    the index is in range whenever it is read. *)
Definition currentWeather (weatherData : list WeatherDataPoint) : CurrentWeather :=
if Nat.ltb 0 (List.length weatherData)
then match nth_error weatherData (List.length weatherData - 1) with
     | Some p => ofPoint p
     | None => defaultWeather
     end
else defaultWeather.

(** The colour of the air-quality card. *)
Definition cardColor (averageAQI : number) : string :=
if leb averageAQI 50 then "green"
else if leb averageAQI 100 then "orange"
else "red".

(** The values of the temperature and humidity cards:
    [Math.round(currentWeather.temperature || 20)] and
    [Math.round(currentWeather.humidity || 65)]. *)
Definition shownTemperature (currentWeather : CurrentWeather) : number :=
Math_round (orElse (Some (cw_temperature currentWeather)) 20).

Definition shownHumidity (currentWeather : CurrentWeather) : number :=
Math_round (orElse (Some (cw_humidity currentWeather)) 65).

(** The text of the outdoor-activities recommendation. *)
Definition activityAdvice (averageAQI : number) : string :=
if leb averageAQI 50
then "Ideal pentru toate activitățile în exterior. Calitatea aerului este excelentă."
else if leb averageAQI 100
then "Activitățile în exterior sunt acceptabile pentru majoritatea persoanelor."
else "Se recomandă limitarea activităților intense în exterior, mai ales pentru grupurile sensibile.".

(** The text of the ventilation recommendation. *)
Definition ventilationAdvice (averageAQI : number) : string :=
if leb averageAQI 75
then "Aerisiți regulat locuința pentru a menține aerul proaspăt."
else "Limitați ventilarea când calitatea exterioară a aerului este scăzută.".

End BucharestDashboard.

(** * Definitions used by the statements *)

(** The sub-index as the specification words it: the concentration scaled
    against the pollutant's reference, times 100, capped at 300. *)
Definition subIndex (concentration reference : number) : number :=
  Qmin (concentration / reference * 100) 300.

(** The worst of the three sub-indices of a reading. *)
Definition maxSubIndex (m : AirQualityMeasurement) : number :=
  Qmax (Qmax (subIndex (pm25 m) (354 # 10)) (subIndex (pm10 m) 154))
       (subIndex (no2 m) 100).

(** The guarded sub-index of the code, for one pollutant. *)
Definition guardedSubIndex (x : option number) (reference : number) : number :=
  if truthy x then Math_min ((valueOf x / reference) * 100) 300 else 0.

(** The sum and the arithmetic mean of a list of numbers, the mean of no
    number being 0. *)
Definition total (xs : list number) : number := fold_right Qplus 0 xs.

Definition arithmeticMean (xs : list number) : number :=
  match xs with
  | [] => 0
  | _ :: _ => total xs / ofNat (List.length xs)
  end.

Definition issue (r : Request) (w : World) : World :=
  mkWorld (requests w ++ [r]) (draws w).

(** The station list [getStations] resolves to when its request is the
    [n]-th one. *)
Definition stationsAt (env : Env) (n : nat) : list Station :=
  match stationsApi env n with
  | Ok raw => map (CalitateAerService.toStation env)
                  (filter CalitateAerService.isBucharest raw)
  | Failed _ => CalitateAerService.getMockStations
  end.

(** The sample built from a provider's measurement object. *)
Definition liveSample (env : Env) (stations : list Station) (stationId : Z)
  (data : RawMeasurement) : AirQualityData :=
  {| stationId := stationId;
     stationName :=
       strOrElse (option_map name (find (fun s => Z.eqb (id s) stationId) stations))
                 "Unknown";
     timestamp := toISOString env (now env);
     measurements :=
       {| pm25 := orElse (raw_pm25 data) 0;
          pm10 := orElse (raw_pm10 data) 0;
          no2 := orElse (raw_no2 data) 0;
          o3 := orElse (raw_o3 data) 0;
          so2 := orElse (raw_so2 data) 0;
          co := orElse (raw_co data) 0 |};
     aqi := CalitateAerService.calculateAQI data |}.

(** What the per-station callback resolves to when its request is the
    [n]-th one. *)
Definition currentAt (env : Env) (stations : list Station) (n : nat) (stationId : Z)
  : option AirQualityData :=
  match currentApi env n stationId with
  | Ok data => Some (liveSample env stations stationId data)
  | Failed _ => None
  end.

(** The results of the per-station callbacks, the first request being the
    [n]-th one. *)
Fixpoint currentBatch (env : Env) (stations : list Station) (n : nat) (ids : list Z)
  : list (option AirQualityData) :=
  match ids with
  | [] => []
  | stationId :: rest =>
      currentAt env stations n stationId :: currentBatch env stations (S n) rest
  end.

(** A computation that always resolves. *)
Definition resolves {A} (c : Async A) : Prop :=
  forall env w, exists a w', c env w = (Fulfilled a, w').

(** A computation that always resolves and issues no request. *)
Definition quiet {A} (c : Async A) : Prop :=
  forall env w, exists a d, c env w = (Fulfilled a, mkWorld (requests w) d).

Ltac run := unfold bind, try_catch, ask, ret, throw, api_get, Math_random, issue; simpl.

Definition failed {A} (r : Response A) : bool :=
  match r with
  | Ok _ => false
  | Failed _ => true
  end.

(** An environment for examples: the station list cannot be fetched, the
    station with id 3 cannot be read, and every other station reports the
    same measurement together with an index of its own. *)
Definition exampleReading : RawMeasurement :=
  mkRawMeasurement (Some 10) (Some 20) None (Some 30) (Some 0) None (Some 99).

Definition stationThreeDown : Env :=
  {| stationsApi := fun _ => Failed "Network Error";
     currentApi := fun _ stationId =>
       if Z.eqb stationId 3 then Failed "timeout of 10000ms exceeded" else Ok exampleReading;
     historicalApi := fun _ _ _ _ => Failed "Network Error";
     currentWeatherApi := fun _ => Failed "Network Error";
     hourlyForecastApi := fun _ => Failed "Network Error";
     random := fun _ => 0;
     now := 0;
     toISOString := fun _ => "1970-01-01T00:00:00.000Z"%string;
     getHours := fun _ => 0%Z;
     parseFloat := fun _ => 0;
     Math_sin := fun _ => 0;
     Math_PI := 355 # 113 |}.

Definition start : World := mkWorld [] 0.

Ltac live_call_at j :=
  exists j; eexists; split; [lia|]; split; [simpl; eassumption | reflexivity].

Ltac live_call :=
  first [ live_call_at 0%nat | live_call_at 1%nat | live_call_at 2%nat
        | live_call_at 3%nat | live_call_at 4%nat ].

(** Every call of every endpoint fails. *)
Definition offline (env : Env) : Prop :=
  (forall n, failed (stationsApi env n) = true) /\
  (forall n stationId, failed (currentApi env n stationId) = true) /\
  (forall n stationId startDate endDate,
     failed (historicalApi env n stationId startDate endDate) = true) /\
  (forall n, failed (currentWeatherApi env n) = true) /\
  (forall n, failed (hourlyForecastApi env n) = true).

Definition allDown : Env :=
  {| stationsApi := fun _ => Failed "Network Error";
     currentApi := fun _ _ => Failed "Network Error";
     historicalApi := fun _ _ _ _ => Failed "Network Error";
     currentWeatherApi := fun _ => Failed "Network Error";
     hourlyForecastApi := fun _ => Failed "Network Error";
     random := fun _ => 1 # 2;
     now := 0;
     toISOString := fun _ => "1970-01-01T00:00:00.000Z"%string;
     getHours := fun _ => 0%Z;
     parseFloat := fun _ => 0;
     Math_sin := fun _ => 0;
     Math_PI := 355 # 113 |}.


(** The results of [mapA f xs] for a callback that makes [k] draws and
    issues no request: [g x env d] is what [f x] builds when [d] draws were
    made before. *)
Fixpoint drawn {A B} (g : A -> Env -> nat -> B) (k : nat) (xs : list A)
  (env : Env) (d : nat) : list B :=
  match xs with
  | [] => []
  | x :: rest => g x env d :: drawn g k rest env (k + d)
  end.

(** The fallback sample of a station when [d] draws were made before. *)
Definition mockSampleAt (station : Station) (env : Env) (d : nat) : AirQualityData :=
  {| stationId := id station;
     stationName := name station;
     timestamp := toISOString env (now env);
     measurements :=
       {| pm25 := Math_floor (random env d * 50) + 10;
          pm10 := Math_floor (random env (1 + d) * 80) + 20;
          no2 := Math_floor (random env (2 + d) * 60) + 15;
          o3 := Math_floor (random env (3 + d) * 120) + 30;
          so2 := Math_floor (random env (4 + d) * 30) + 5;
          co := Math_floor (random env (5 + d) * 10) + 2 |};
     aqi := Math_floor (random env (6 + d) * 150) + 25 |}.


(** [Math.random()] returns a number from 0 up to, not including, 1. *)
Definition randomInRange (env : Env) : Prop :=
  forall i, 0 <= random env i /\ random env i < 1.

(** [Math.sin] returns a number from -1 to 1. *)
Definition sineInRange (env : Env) : Prop :=
  forall x, -1 <= Math_sin env x /\ Math_sin env x <= 1.

(** An integer-valued number within bounds. *)
Definition integerBetween (lo hi : Z) (x : number) : Prop :=
  exists z : Z, x = inject_Z z /\ (lo <= z <= hi)%Z.

(** [needle] occurs in [s]. *)
Definition occursIn (needle s : string) : Prop :=
  exists before after : string, s = (before ++ needle ++ after)%string.

(** The historical point built from an item of the air-quality provider. *)
Definition liveHistoricalPoint (item : RawHistoricalItem) : HistoricalDataPoint :=
  {| date := item_date item;
     h_aqi := CalitateAerService.calculateAQI (item_values item);
     h_pm25 := orElse (raw_pm25 (item_values item)) 0;
     h_pm10 := orElse (raw_pm10 (item_values item)) 0;
     h_temperature := None |}.

(** The forecast sample built from an item of the weather provider. *)
Definition liveHour (item : RawHourly) : WeatherData :=
  {| w_timestamp := rh_time item;
     temperature := rh_temperature item;
     humidity := rh_humidity item;
     windSpeed := rh_windSpeed item;
     pressure := rh_pressure item;
     uvIndex := orElse (rh_uvIndex item) 0 |}.

(** An environment in which every call succeeds: two stations are listed,
    one of them outside Bucharest, and the provider sends its own index
    along with each measurement. *)
Definition allUp : Env :=
  {| stationsApi := fun _ =>
       Ok [ mkRawStation 7 "Lacul Morii" "44.45" "26.03" "BUCURESTI" None;
            mkRawStation 8 "Centru" "45.65" "25.60" "BRASOV" (Some "Brasov"%string) ];
     currentApi := fun _ _ => Ok exampleReading;
     historicalApi := fun _ _ _ _ =>
       Ok [ mkRawHistoricalItem "2024-05-01" exampleReading ];
     currentWeatherApi := fun _ => Ok (mkRawWeather 21 50 7 1012 (Some 3));
     hourlyForecastApi := fun _ =>
       Ok [ mkRawHourly "2024-05-01T10:00" 21 50 7 1012 None ];
     random := fun _ => 1 # 2;
     now := 0;
     toISOString := fun _ => "1970-01-01T00:00:00.000Z"%string;
     getHours := fun _ => 0%Z;
     parseFloat := fun _ => 0;
     Math_sin := fun _ => 0;
     Math_PI := 355 # 113 |}.



(** * Properties *)

(** ** The index calculation *)

Lemma calculateAQI_unfold (d : RawMeasurement) :
  CalitateAerService.calculateAQI d =
  Math_round (Math_max3 (guardedSubIndex (raw_pm25 d) (354 # 10))
                        (guardedSubIndex (raw_pm10 d) 154)
                        (guardedSubIndex (raw_no2 d) 100)).
Proof. reflexivity. Qed.

Lemma guardedSubIndex_present (v reference : number) :
  guardedSubIndex (Some v) reference == subIndex v reference.
Proof.
  unfold guardedSubIndex, subIndex, truthy, valueOf, Math_min.
  destruct (Qeq_bool v 0) eqn:E; simpl; [|reflexivity].
  apply Qeq_bool_eq in E.
  assert (Hz : v / reference * 100 == 0).
  { rewrite E. unfold Qdiv. ring. }
  rewrite Hz. symmetry. apply Q.min_l. lra.
Qed.

Lemma guardedSubIndex_le_300 (x : option number) (reference : number) :
  guardedSubIndex x reference <= 300.
Proof.
  unfold guardedSubIndex, Math_min.
  destruct (truthy x); [apply Q.le_min_r | lra].
Qed.


Lemma Math_round_comp (x y : number) : x == y -> Math_round x = Math_round y.
Proof.
  intros H. unfold Math_round. f_equal. apply Qfloor_comp. rewrite H. reflexivity.
Qed.

Lemma Math_round_bounds (x : number) (lo hi : Z) :
  inject_Z lo <= x -> x <= inject_Z hi ->
  inject_Z lo <= Math_round x /\ Math_round x <= inject_Z hi.
Proof.
  intros Hlo Hhi. unfold Math_round. rewrite <- !Zle_Qle. split.
  - rewrite <- (Qfloor_Z lo). apply Qfloor_resp_le. lra.
  - assert (H : (Qfloor (x + (1 # 2)) < hi + 1)%Z); [|lia].
    rewrite Zlt_Qlt. eapply Qle_lt_trans; [apply Qfloor_le|].
    rewrite inject_Z_plus. change (inject_Z 1) with 1. lra.
Qed.

Lemma Math_max3_comp (a b c a' b' c' : number) :
  a == a' -> b == b' -> c == c' -> Math_max3 a b c == Math_max3 a' b' c'.
Proof.
  intros Ha Hb Hc. unfold Math_max3. rewrite Ha, Hb, Hc. reflexivity.
Qed.

Lemma guardedSubIndex_comp (u v reference : number) :
  u == v -> guardedSubIndex (Some u) reference == guardedSubIndex (Some v) reference.
Proof.
  intros H. rewrite !guardedSubIndex_present. unfold subIndex. rewrite H. reflexivity.
Qed.




(** The bound from below needs the data model's non-negative
    concentrations: three negative numbers give a negative index. *)
Lemma calculateAQI_of_negative_numbers :
  CalitateAerService.calculateAQI (ofMeasurement (mkMeasurement (-10) (-10) (-10) 0 0 0))
  == -6.
Proof. reflexivity. Qed.

(** C9: two readings that agree on PM2.5, PM10 and NO2 have the same index,
    whatever their ozone, sulfur dioxide and carbon monoxide. *)
Theorem calculateAQI_ignores_o3_so2_co (m m' : AirQualityMeasurement) :
  pm25 m == pm25 m' -> pm10 m == pm10 m' -> no2 m == no2 m' ->
  CalitateAerService.calculateAQI (ofMeasurement m)
  = CalitateAerService.calculateAQI (ofMeasurement m').
Proof.
  intros H25 H10 Hno2. rewrite !calculateAQI_unfold.
  apply Math_round_comp. simpl.
  apply Math_max3_comp; apply guardedSubIndex_comp; assumption.
Qed.

Lemma calculateAQI_ignores_o3_so2_co_witness :
  CalitateAerService.calculateAQI (ofMeasurement (mkMeasurement 40 90 55 0 0 0))
  = CalitateAerService.calculateAQI (ofMeasurement (mkMeasurement 40 90 55 149 34 11)).
Proof.
  apply (calculateAQI_ignores_o3_so2_co
           (mkMeasurement 40 90 55 0 0 0) (mkMeasurement 40 90 55 149 34 11));
    reflexivity.
Defined.

(** ** Severity banding *)

(** C10: the gauge's banding and the data service's banding return the same
    label and the same colour for every index value. *)
Theorem banding_implementations_agree (aqi : number) :
  AQIGauge.getAQILevel aqi = DataService.getAQILevel aqi /\
  AQIGauge.getAQIColor aqi = DataService.getAQIColor aqi.
Proof.
  unfold AQIGauge.getAQILevel, DataService.getAQILevel,
         AQIGauge.getAQIColor, DataService.getAQIColor.
  destruct (leb aqi 50), (leb aqi 100), (leb aqi 150), (leb aqi 200);
    split; reflexivity.
Qed.

(** ** Summary statistics *)

Lemma reduce_sum {A} (f : A -> number) (l : list A) (acc : number) :
  fold_left (fun sum x => sum + f x) l acc == acc + total (map f l).
Proof.
  unfold number in *.
  revert acc. induction l as [|x l IH]; intros acc; simpl.
  - ring.
  - rewrite IH. ring.
Qed.

(** C5: the mean index of the data service and of the dashboard is the
    arithmetic mean of the stations' indices, 0 for no station; the alert
    list holds the one sensitive-groups advisory when the mean exceeds 100
    (as for 120) and is empty otherwise (as for 80). *)
Theorem mean_index_and_alerts
  (samples : list AirQualityData)
  (shown : list BucharestDashboard.AirQualityStation)
  (mean : number) :
  DataService.calculateAverageAQI samples == arithmeticMean (map aqi samples) /\
  BucharestDashboard.averageAQI shown
    == arithmeticMean (map BucharestDashboard.aqi shown) /\
  DataService.calculateAverageAQI [] = 0 /\
  BucharestDashboard.averageAQI [] = 0 /\
  BucharestDashboard.alerts mean
    = (if Qlt_le_dec 100 mean then [BucharestDashboard.advisory] else []) /\
  BucharestDashboard.alerts 120 = [BucharestDashboard.advisory] /\
  BucharestDashboard.alerts 80 = [].
Proof.
  repeat split; try reflexivity.
  - unfold DataService.calculateAverageAQI, arithmeticMean.
    destruct samples as [|s l]; [reflexivity|].
    cbn [List.length Nat.eqb map].
    rewrite reduce_sum. rewrite Qplus_0_l. rewrite length_map. reflexivity.
  - unfold BucharestDashboard.averageAQI, arithmeticMean.
    destruct shown as [|s l]; [reflexivity|].
    cbn [List.length Nat.ltb Nat.leb map].
    rewrite reduce_sum. rewrite Qplus_0_l. rewrite length_map. reflexivity.
  - unfold BucharestDashboard.alerts, gtb.
    destruct (Qlt_le_dec 100 mean) as [Hgt | Hle].
    + destruct (Qle_bool mean 100) eqn:E; [|reflexivity].
      apply Qle_bool_iff in E. lra.
    + apply Qle_bool_iff in Hle. rewrite Hle. reflexivity.
Qed.

(** ** Running the air-quality service *)

Lemma getStations_run (env : Env) (w : World) :
  CalitateAerService.getStations env w
  = (Fulfilled (stationsAt env (List.length (requests w))), issue GetStations w).
Proof.
  unfold CalitateAerService.getStations, stationsAt. run.
  destruct (stationsApi env _); reflexivity.
Qed.

Lemma fetchCurrent_run (env : Env) (w : World) (stations : list Station) (stationId : Z) :
  CalitateAerService.fetchCurrent stations stationId env w
  = (Fulfilled (currentAt env stations (List.length (requests w)) stationId),
     issue (GetCurrentMeasurement stationId) w).
Proof.
  unfold CalitateAerService.fetchCurrent, currentAt. run.
  destruct (currentApi env _ _); reflexivity.
Qed.

Lemma Promise_all_fetchCurrent (env : Env) (stations : list Station) (ids : list Z) :
  forall w,
    Promise_all (map (CalitateAerService.fetchCurrent stations) ids) env w
    = (Fulfilled (currentBatch env stations (List.length (requests w)) ids),
       mkWorld (requests w ++ map GetCurrentMeasurement ids) (draws w)).
Proof.
  induction ids as [|i rest IH]; intros w.
  - simpl. unfold ret. rewrite app_nil_r. destruct w; reflexivity.
  - simpl. unfold both. rewrite fetchCurrent_run. rewrite IH. simpl.
    rewrite length_app, Nat.add_1_r. rewrite <- app_assoc. reflexivity.
Qed.

(** The handler of [getCurrentAirQuality] never runs: the method resolves to
    the samples of the stations whose call succeeded. *)
Lemma getCurrentAirQuality_run (env : Env) (w : World) :
  let n := List.length (requests w) in
  let stations := stationsAt env n in
  CalitateAerService.getCurrentAirQuality env w
  = (Fulfilled (filterNotNull (currentBatch env stations (S n) (map id stations))),
     mkWorld (requests w ++ GetStations :: map GetCurrentMeasurement (map id stations))
             (draws w)).
Proof.
  intros n stations. unfold CalitateAerService.getCurrentAirQuality.
  unfold try_catch at 1. unfold bind at 1. rewrite getStations_run.
  fold n. fold stations. unfold bind at 1. rewrite Promise_all_fetchCurrent.
  unfold issue, ret. simpl. rewrite length_app, Nat.add_1_r. fold n.
  rewrite <- app_assoc. reflexivity.
Qed.

(** C3, as the specification states it, fails: with five stations of which
    the third cannot be read, the batch resolves to four samples, not five;
    no fallback sample is made for the failed station. *)
Lemma one_failed_station_leaves_four_samples :
  exists samples w,
    CalitateAerService.getCurrentAirQuality stationThreeDown start
      = (Fulfilled samples, w) /\
    map stationId samples = [1; 2; 4; 5]%Z /\
    List.length samples <> 5%nat.
Proof.
  eexists. eexists. split; [vm_compute; reflexivity|].
  split; [reflexivity | discriminate].
Qed.

(** C3, amended: when the station list has five stations and exactly one of
    the five per-station calls fails, the batch does not fail and resolves to
    four samples, those of the four other stations in station order, each
    with the index computed from its live reading; the failed station is
    absent, and the mean index is the mean over these four.  (The request
    for the station list is request number [n], and the call for the
    station at position [j] is request number [j + S n]; [k] is the position
    of the failing call.) *)
Theorem one_failed_station_is_absent
  (env : Env) (w : World) (s0 s1 s2 s3 s4 : Station) (k : nat) :
  let n := List.length (requests w) in
  let stations := [s0; s1; s2; s3; s4] in
  fst (CalitateAerService.getStations env w) = Fulfilled stations ->
  (k < 5)%nat ->
  (forall j, (j < 5)%nat ->
     failed (currentApi env (j + S n) (id (nth j stations s0))) = Nat.eqb j k) ->
  exists samples w',
    CalitateAerService.getCurrentAirQuality env w = (Fulfilled samples, w') /\
    List.length samples = 4%nat /\
    map stationId samples = map id (firstn k stations ++ skipn (S k) stations) /\
    Forall (fun s => exists j data,
              (j < 5)%nat /\
              currentApi env (j + S n) (stationId s) = Ok data /\
              s = liveSample env stations (stationId s) data) samples /\
    DataService.calculateAverageAQI samples == total (map aqi samples) / 4.
Proof.
  intros n stations Hst Hk Hcalls.
  rewrite getStations_run in Hst. cbn [fst] in Hst. injection Hst as Hst. fold n in Hst.
  pose proof (Hcalls 0%nat ltac:(lia)) as H0.
  pose proof (Hcalls 1%nat ltac:(lia)) as H1.
  pose proof (Hcalls 2%nat ltac:(lia)) as H2.
  pose proof (Hcalls 3%nat ltac:(lia)) as H3.
  pose proof (Hcalls 4%nat ltac:(lia)) as H4.
  clear Hcalls. simpl in H0, H1, H2, H3, H4.
  rewrite getCurrentAirQuality_run. fold n. rewrite Hst.
  eexists. eexists. split; [reflexivity|].
  subst stations. cbn [map id currentBatch]. unfold currentAt.
  destruct (currentApi env (S n) (id s0)) as [d0|] eqn:E0;
  destruct (currentApi env (S (S n)) (id s1)) as [d1|] eqn:E1;
  destruct (currentApi env (S (S (S n))) (id s2)) as [d2|] eqn:E2;
  destruct (currentApi env (S (S (S (S n)))) (id s3)) as [d3|] eqn:E3;
  destruct (currentApi env (S (S (S (S (S n))))) (id s4)) as [d4|] eqn:E4;
  destruct k as [|[|[|[|[|k]]]]]; try lia;
  simpl in H0, H1, H2, H3, H4; try discriminate;
  cbn [filterNotNull List.length];
  (split; [reflexivity|]);
  (split; [reflexivity|]);
  (split;
   [ repeat (apply Forall_cons; [cbn [stationId liveSample]; live_call|]);
     apply Forall_nil
   | unfold DataService.calculateAverageAQI; cbn [List.length Nat.eqb];
     rewrite reduce_sum, Qplus_0_l; reflexivity ]).
Qed.

Lemma one_failed_station_is_absent_witness :
  exists samples w',
    CalitateAerService.getCurrentAirQuality stationThreeDown start
      = (Fulfilled samples, w') /\
    List.length samples = 4%nat.
Proof.
  destruct (one_failed_station_is_absent stationThreeDown start
              (mkStation 1 "Calea Plevnei" (444378 # 10000) (260875 # 10000) "BUCURESTI" None)
              (mkStation 2 "Drumul Taberei" (444247 # 10000) (260301 # 10000) "BUCURESTI" None)
              (mkStation 3 "Berceni" (443876 # 10000) (261186 # 10000) "BUCURESTI" None)
              (mkStation 4 "Titan" (444334 # 10000) (261496 # 10000) "BUCURESTI" None)
              (mkStation 5 "Ambasada" (444601 # 10000) (260844 # 10000) "BUCURESTI" None)
              2%nat)
    as (samples & w' & Hrun & Hlen & _).
  - reflexivity.
  - lia.
  - intros j Hj. do 5 (destruct j as [|j]; [reflexivity|]). lia.
  - exists samples, w'. split; assumption.
Defined.

(** ** The fallback generators and the other tasks of the aggregation *)

Lemma mapA_quiet {A B} (f : A -> Async B) (xs : list A) :
  (forall x, quiet (f x)) ->
  forall env w, exists l d,
    mapA f xs env w = (Fulfilled l, mkWorld (requests w) d) /\
    List.length l = List.length xs.
Proof.
  intros Hf. induction xs as [|x rest IH]; intros env w.
  - exists [], (draws w). destruct w; split; reflexivity.
  - destruct (Hf x env w) as (y & d & Hy).
    destruct (IH env (mkWorld (requests w) d)) as (ys & d' & Hys & Hlen).
    exists (y :: ys), d'. simpl. unfold bind at 1. rewrite Hy.
    unfold bind at 1. rewrite Hys. unfold ret. simpl. split; [reflexivity|].
    f_equal. exact Hlen.
Qed.

Lemma mockHistoricalPoint_quiet (i : nat) :
  quiet (CalitateAerService.mockHistoricalPoint i).
Proof.
  intros env w. eexists. eexists.
  unfold CalitateAerService.mockHistoricalPoint. run. reflexivity.
Qed.

Lemma mockHour_quiet (i : nat) : quiet (CopernicusService.mockHour i).
Proof.
  intros env w. eexists. eexists.
  unfold CopernicusService.mockHour. run. reflexivity.
Qed.

Lemma getMockWeatherData_quiet : quiet CopernicusService.getMockWeatherData.
Proof.
  intros env w. eexists. eexists.
  unfold CopernicusService.getMockWeatherData. run. reflexivity.
Qed.

(** The historical fallback always has thirty points and issues no request. *)
Lemma getMockHistoricalData_run (env : Env) (w : World) :
  exists points d,
    CalitateAerService.getMockHistoricalData env w
      = (Fulfilled points, mkWorld (requests w) d) /\
    List.length points = 30%nat.
Proof.
  destruct (mapA_quiet CalitateAerService.mockHistoricalPoint (indices 30)
              mockHistoricalPoint_quiet env w) as (l & d & H & Hlen).
  exists l, d. split; [exact H|]. rewrite Hlen. reflexivity.
Qed.

Lemma getMockHourlyData_run (env : Env) (w : World) :
  exists hours d,
    CopernicusService.getMockHourlyData env w
      = (Fulfilled hours, mkWorld (requests w) d) /\
    List.length hours = 24%nat.
Proof.
  destruct (mapA_quiet CopernicusService.mockHour (indices 24)
              mockHour_quiet env w) as (l & d & H & Hlen).
  exists l, d. split; [exact H|]. rewrite Hlen. reflexivity.
Qed.

Lemma getCurrentWeather_resolves : resolves CopernicusService.getCurrentWeather.
Proof.
  intros env w. unfold CopernicusService.getCurrentWeather.
  unfold try_catch, bind at 1, api_get.
  destruct (currentWeatherApi env _) as [data|msg].
  - run. destruct (truthy (rw_uvIndex data)); simpl; eexists; eexists; reflexivity.
  - destruct (getMockWeatherData_quiet env
                (mkWorld (requests w ++ [GetCurrentWeather]) (draws w)))
      as (a & d & H).
    rewrite H. eexists. eexists. reflexivity.
Qed.

Lemma getHourlyForecast_resolves : resolves CopernicusService.getHourlyForecast.
Proof.
  intros env w. unfold CopernicusService.getHourlyForecast.
  unfold try_catch, bind at 1, api_get.
  destruct (hourlyForecastApi env _) as [data|msg].
  - run. eexists. eexists. reflexivity.
  - destruct (getMockHourlyData_run env
                (mkWorld (requests w ++ [GetHourlyForecast]) (draws w)))
      as (a & d & H & _).
    rewrite H. eexists. eexists. reflexivity.
Qed.

Lemma getHourlyForecast_offline (env : Env) (w : World) :
  failed (hourlyForecastApi env (List.length (requests w))) = true ->
  exists hours w',
    CopernicusService.getHourlyForecast env w = (Fulfilled hours, w') /\
    List.length hours = 24%nat.
Proof.
  intros Hf. unfold CopernicusService.getHourlyForecast.
  unfold try_catch, bind at 1, api_get.
  destruct (hourlyForecastApi env _) as [data|msg]; [discriminate|].
  destruct (getMockHourlyData_run env
              (mkWorld (requests w ++ [GetHourlyForecast]) (draws w)))
    as (a & d & H & Hlen).
  rewrite H. eexists. eexists. split; [reflexivity | exact Hlen].
Qed.

Lemma getHistoricalAirQuality_run (env : Env) (w : World) (stationId startDate endDate : Z) :
  exists points d,
    CalitateAerService.getHistoricalAirQuality stationId startDate endDate env w
    = (Fulfilled points,
       mkWorld (requests w ++ [GetHistoricalMeasurements stationId
                                 (isoDay env startDate) (isoDay env endDate)]) d) /\
    (failed (historicalApi env (List.length (requests w)) stationId
               (isoDay env startDate) (isoDay env endDate)) = true ->
     List.length points = 30%nat).
Proof.
  unfold CalitateAerService.getHistoricalAirQuality.
  unfold try_catch, bind at 1, ask, bind at 1, api_get.
  destruct (historicalApi env _ _ _ _) as [data|msg].
  - unfold ret. eexists. eexists. split; [reflexivity | discriminate].
  - match goal with
    | |- context [CalitateAerService.getMockHistoricalData env ?w1] =>
        destruct (getMockHistoricalData_run env w1) as (a & d & H & Hlen)
    end.
    rewrite H. eexists. eexists. split; [reflexivity | intros _; exact Hlen].
Qed.

(** [getHistoricalData]: the station list is fetched; a non-empty list
    leads to one historical query, for its first station, and an empty one
    to the fallback generator. *)
Lemma getHistoricalData_run (env : Env) (w : World) :
  let stations := stationsAt env (List.length (requests w)) in
  let w1 := issue GetStations w in
  match stations with
  | first :: _ =>
      DataService.getHistoricalData env w
      = CalitateAerService.getHistoricalAirQuality
          (id first) (now env - 30 * msPerDay)%Z (now env) env w1
  | [] =>
      DataService.getHistoricalData env w
      = CalitateAerService.getMockHistoricalData env w1
  end.
Proof.
  intros stations w1.
  cbv beta iota zeta delta [DataService.getHistoricalData bind try_catch ask].
  rewrite getStations_run. fold stations. fold w1.
  destruct stations as [|first rest].
  - destruct (getMockHistoricalData_run env w1) as (a & d & H & _).
    rewrite H. reflexivity.
  - destruct (getHistoricalAirQuality_run env w1 (id first)
                (now env - 30 * msPerDay)%Z (now env)) as (a & d & H & _).
    rewrite H. reflexivity.
Qed.

Lemma getHistoricalData_resolves : resolves DataService.getHistoricalData.
Proof.
  intros env w. pose proof (getHistoricalData_run env w) as H. cbv zeta in H.
  destruct (stationsAt env _) as [|first rest]; rewrite H.
  - destruct (getMockHistoricalData_run env (issue GetStations w)) as (a & d & E & _).
    rewrite E. eexists. eexists. reflexivity.
  - destruct (getHistoricalAirQuality_run env (issue GetStations w) (id first)
                (now env - 30 * msPerDay)%Z (now env)) as (a & d & E & _).
    rewrite E. eexists. eexists. reflexivity.
Qed.

(** The aggregation, task by task: none of the five tasks is rejected, so
    the catch-and-rethrow of [getAllDashboardData] never runs. *)
Lemma getAllDashboardData_run (env : Env) (w : World) :
  exists samples w1 currentWeather w2 hourlyForecast w3 stationList w4 points w5,
    CalitateAerService.getCurrentAirQuality env w = (Fulfilled samples, w1) /\
    CopernicusService.getCurrentWeather env w1 = (Fulfilled currentWeather, w2) /\
    CopernicusService.getHourlyForecast env w2 = (Fulfilled hourlyForecast, w3) /\
    CalitateAerService.getStations env w3 = (Fulfilled stationList, w4) /\
    DataService.getHistoricalData env w4 = (Fulfilled points, w5) /\
    DataService.getAllDashboardData env w
    = (Fulfilled
         {| DataService.airQuality := samples;
            DataService.weather :=
              {| DataService.current := currentWeather;
                 DataService.hourly := hourlyForecast |};
            DataService.stations := stationList;
            DataService.historical := points;
            DataService.lastUpdated := now env |}, w5).
Proof.
  pose proof (getCurrentAirQuality_run env w) as H1. cbv zeta in H1.
  match type of H1 with _ = (Fulfilled ?a, ?b) =>
    set (samples := a) in *; set (w1 := b) in * end.
  destruct (getCurrentWeather_resolves env w1) as (cw & w2 & H2).
  destruct (getHourlyForecast_resolves env w2) as (hf & w3 & H3).
  pose proof (getStations_run env w3) as H4.
  match type of H4 with _ = (Fulfilled ?a, ?b) =>
    set (stationList := a) in *; set (w4 := b) in * end.
  destruct (getHistoricalData_resolves env w4) as (points & w5 & H5).
  exists samples, w1, cw, w2, hf, w3, stationList, w4, points, w5.
  repeat (split; [assumption|]).
  unfold DataService.getAllDashboardData.
  unfold try_catch, bind at 1. unfold both.
  rewrite H1, H2, H3, H4, H5. reflexivity.
Qed.

Lemma getAllDashboardData_resolves : resolves DataService.getAllDashboardData.
Proof.
  intros env w.
  destruct (getAllDashboardData_run env w)
    as (a & w1 & b & w2 & c & w3 & d & w4 & e & w5 & _ & _ & _ & _ & _ & H).
  rewrite H. eexists. eexists. reflexivity.
Qed.

(** ** The aggregation when the providers are down *)

Lemma currentBatch_all_failed (env : Env) (stations : list Station) (ids : list Z) :
  (forall n stationId, failed (currentApi env n stationId) = true) ->
  forall n, filterNotNull (currentBatch env stations n ids) = [].
Proof.
  intros Hdown. induction ids as [|i rest IH]; intros n; simpl.
  - reflexivity.
  - unfold currentAt. specialize (Hdown n i).
    destruct (currentApi env n i); [discriminate | apply IH].
Qed.

Lemma stationsAt_failed (env : Env) (n : nat) :
  failed (stationsApi env n) = true ->
  stationsAt env n = CalitateAerService.getMockStations.
Proof.
  unfold stationsAt. destruct (stationsApi env n); [discriminate | reflexivity].
Qed.

(** C1 fails when the providers are down: the aggregation does resolve, and
    the station list, the hourly forecast and the history are the fallback
    ones, but the list of air-quality samples is empty.  [getStations]
    absorbs its own failure and each per-station callback resolves to
    [null], so the handler of [getCurrentAirQuality] that would call
    [getMockAirQuality] is never reached. *)
Theorem offline_aggregation_has_no_samples (env : Env) (w : World) :
  offline env ->
  exists d w',
    DataService.getAllDashboardData env w = (Fulfilled d, w') /\
    DataService.airQuality d = [] /\
    DataService.stations d = CalitateAerService.getMockStations /\
    List.length (DataService.hourly (DataService.weather d)) = 24%nat /\
    List.length (DataService.historical d) = 30%nat.
Proof.
  intros (Hst & Hcur & Hhist & Hcw & Hhf).
  destruct (getAllDashboardData_run env w)
    as (samples & w1 & cw & w2 & hf & w3 & sts & w4 & points & w5
        & H1 & H2 & H3 & H4 & H5 & Hrun).
  rewrite Hrun. eexists. eexists. split; [reflexivity|]. simpl.
  rewrite getCurrentAirQuality_run in H1. injection H1 as Hs _.
  rewrite getStations_run in H4. injection H4 as Hl Hw4.
  destruct (getHourlyForecast_offline env w2 (Hhf _)) as (hf' & w3' & H3' & Hlen).
  rewrite H3 in H3'. injection H3' as Hf' _. subst hf'.
  repeat split.
  - rewrite <- Hs. apply currentBatch_all_failed, Hcur.
  - rewrite <- Hl. apply stationsAt_failed, Hst.
  - exact Hlen.
  - pose proof (getHistoricalData_run env w4) as Hh. cbv zeta in Hh.
    rewrite (stationsAt_failed _ _ (Hst _)) in Hh.
    unfold CalitateAerService.getMockStations in Hh. cbv iota in Hh.
    rewrite Hh in H5.
    match type of H5 with
    | CalitateAerService.getHistoricalAirQuality ?i ?s ?e env ?w0 = _ =>
        destruct (getHistoricalAirQuality_run env w0 i s e) as (a & d & E & Hlen30)
    end.
    rewrite E in H5. injection H5 as Hp _. subst a.
    apply Hlen30, Hhist.
Qed.

Lemma offline_aggregation_has_no_samples_witness :
  exists d w',
    DataService.getAllDashboardData allDown start = (Fulfilled d, w') /\
    DataService.airQuality d = [] /\
    DataService.stations d = CalitateAerService.getMockStations.
Proof.
  destruct (offline_aggregation_has_no_samples allDown start)
    as (d & w' & Hrun & Hair & Hsts & _).
  - unfold offline. simpl. repeat split; intros; reflexivity.
  - exists d, w'. repeat split; assumption.
Defined.

(** ** Where the index of a sample comes from *)




Lemma mapA_drawn {A B} (f : A -> Async B) (g : A -> Env -> nat -> B) (k : nat) :
  (forall x env w,
     f x env w = (Fulfilled (g x env (draws w)), mkWorld (requests w) (k + draws w))) ->
  forall xs env w,
    mapA f xs env w
    = (Fulfilled (drawn g k xs env (draws w)),
       mkWorld (requests w) (k * List.length xs + draws w)).
Proof.
  intros Hf xs env. induction xs as [|x rest IH]; intros w.
  - simpl. unfold ret. rewrite Nat.mul_0_r. destruct w; reflexivity.
  - cbn [mapA drawn List.length]. unfold bind at 1. rewrite Hf.
    unfold bind at 1. rewrite IH. unfold ret. cbn [requests draws].
    do 2 f_equal. lia.
Qed.

Lemma mockSample_run (station : Station) (env : Env) (w : World) :
  CalitateAerService.mockSample station env w
  = (Fulfilled (mockSampleAt station env (draws w)),
     mkWorld (requests w) (7 + draws w)).
Proof. reflexivity. Qed.

Lemma getMockAirQuality_run (env : Env) (w : World) :
  CalitateAerService.getMockAirQuality env w
  = (Fulfilled (drawn mockSampleAt 7 CalitateAerService.getMockStations env (draws w)),
     mkWorld (requests w) (35 + draws w)).
Proof.
  unfold CalitateAerService.getMockAirQuality.
  rewrite (mapA_drawn _ mockSampleAt 7 mockSample_run). reflexivity.
Qed.



(** ** The historical task *)


(** When the provider answers the station-list request the same way every
    time, the list the historical task works on is the [stations] field of
    the aggregate. *)
Lemma historical_station_list_is_the_aggregate_one (env : Env) (w : World) :
  (forall n m, stationsApi env n = stationsApi env m) ->
  exists d w4 w4' w5,
    DataService.getAllDashboardData env w = (Fulfilled d, w5) /\
    CalitateAerService.getStations env w4 = (Fulfilled (DataService.stations d), w4') /\
    DataService.getHistoricalData env w4
      = (Fulfilled (DataService.historical d), w5).
Proof.
  intros Hsame.
  destruct (getAllDashboardData_run env w)
    as (samples & w1 & cw & w2 & hf & w3 & sts & w4 & points & w5
        & _ & _ & _ & H4 & H5 & Hrun).
  rewrite Hrun. eexists. exists w4. eexists. exists w5.
  split; [reflexivity|]. split; [|exact H5]. cbn [DataService.stations].
  rewrite getStations_run in H4. injection H4 as Hl _. subst sts.
  rewrite getStations_run. unfold stationsAt.
  rewrite (Hsame (List.length (requests w3)) (List.length (requests w4))).
  reflexivity.
Qed.

(** ** The size of the fallback data *)



(** * Further properties of the code *)

(** ** The index calculation *)

Lemma subIndex_monotone (u v reference : number) :
  0 < reference -> u <= v -> subIndex u reference <= subIndex v reference.
Proof.
  intros Hr Huv. unfold subIndex. apply Q.min_le_compat_r.
  apply Qmult_le_compat_r; [|lra].
  unfold Qdiv. apply Qmult_le_compat_r; [exact Huv|].
  apply Qlt_le_weak, Qinv_lt_0_compat, Hr.
Qed.

Lemma Math_round_monotone (x y : number) : x <= y -> Math_round x <= Math_round y.
Proof.
  intros H. unfold Math_round. rewrite <- Zle_Qle. apply Qfloor_resp_le. lra.
Qed.

Lemma calculateAQI_typed (m : AirQualityMeasurement) :
  CalitateAerService.calculateAQI (ofMeasurement m) = Math_round (maxSubIndex m).
Proof.
  rewrite calculateAQI_unfold. apply Math_round_comp. simpl.
  unfold maxSubIndex. apply Math_max3_comp; apply guardedSubIndex_present.
Qed.

(** X1: the index never decreases when PM2.5, PM10 and NO2 do not
    decrease. *)
Theorem calculateAQI_monotone (m m' : AirQualityMeasurement) :
  pm25 m <= pm25 m' -> pm10 m <= pm10 m' -> no2 m <= no2 m' ->
  CalitateAerService.calculateAQI (ofMeasurement m)
  <= CalitateAerService.calculateAQI (ofMeasurement m').
Proof.
  intros H25 H10 Hno2. rewrite !calculateAQI_typed.
  apply Math_round_monotone. unfold maxSubIndex.
  repeat apply Q.max_le_compat; apply subIndex_monotone; solve [reflexivity | assumption].
Qed.

Lemma calculateAQI_monotone_witness :
  CalitateAerService.calculateAQI (ofMeasurement (mkMeasurement 10 20 15 30 5 2))
  <= CalitateAerService.calculateAQI (ofMeasurement (mkMeasurement 12 20 90 0 0 0)).
Proof.
  apply (calculateAQI_monotone (mkMeasurement 10 20 15 30 5 2)
                               (mkMeasurement 12 20 90 0 0 0));
    simpl; lra.
Defined.

(** X2: the index is 300 as soon as one pollutant reaches three times its
    reference: PM2.5 at 106.2, PM10 at 462 or NO2 at 300. *)
Theorem calculateAQI_saturates (m : AirQualityMeasurement) :
  1062 # 10 <= pm25 m \/ 462 <= pm10 m \/ 300 <= no2 m ->
  CalitateAerService.calculateAQI (ofMeasurement m) = 300.
Proof.
  intros H. rewrite calculateAQI_typed.
  transitivity (Math_round 300); [|reflexivity].
  apply Math_round_comp. apply Qle_antisym.
  - unfold maxSubIndex, subIndex. repeat apply Q.max_lub; apply Q.le_min_r.
  - unfold maxSubIndex, subIndex.
    destruct H as [H | [H | H]].
    + eapply Qle_trans; [|apply Q.le_max_l]. eapply Qle_trans; [|apply Q.le_max_l].
      apply Q.min_glb; [|lra].
      unfold Qdiv. change (/ (354 # 10)) with (10 # 354). lra.
    + eapply Qle_trans; [|apply Q.le_max_l]. eapply Qle_trans; [|apply Q.le_max_r].
      apply Q.min_glb; [|lra].
      unfold Qdiv. change (/ 154) with (1 # 154). lra.
    + eapply Qle_trans; [|apply Q.le_max_r].
      apply Q.min_glb; [|lra].
      unfold Qdiv. change (/ 100) with (1 # 100). lra.
Qed.

Lemma calculateAQI_saturates_witness :
  CalitateAerService.calculateAQI (ofMeasurement (mkMeasurement 0 500 0 0 0 0)) = 300.
Proof.
  apply (calculateAQI_saturates (mkMeasurement 0 500 0 0 0 0)).
  right. left. simpl. lra.
Defined.

(** X3: whatever object [calculateAQI] receives (pollutants absent, zero or
    negative), the index is an integer and at most 300; when all of PM2.5,
    PM10 and NO2 are absent it is 0. *)
Theorem calculateAQI_of_any_object (data : RawMeasurement) :
  (exists z : Z, CalitateAerService.calculateAQI data = inject_Z z /\ (z <= 300)%Z) /\
  CalitateAerService.calculateAQI
    (mkRawMeasurement None None None (raw_o3 data) (raw_so2 data) (raw_co data)
                      (raw_aqi data)) = 0.
Proof.
  split; [|reflexivity].
  rewrite calculateAQI_unfold.
  set (worst := Math_max3 (guardedSubIndex (raw_pm25 data) (354 # 10))
                          (guardedSubIndex (raw_pm10 data) 154)
                          (guardedSubIndex (raw_no2 data) 100)).
  assert (Hm : worst <= 300).
  { unfold worst, Math_max3. repeat apply Q.max_lub; apply guardedSubIndex_le_300. }
  unfold Math_round. eexists. split; [reflexivity|].
  assert (H : (Qfloor (worst + (1 # 2)) < 300 + 1)%Z); [|lia].
  rewrite Zlt_Qlt. eapply Qle_lt_trans; [apply Qfloor_le|].
  rewrite inject_Z_plus. change (inject_Z 300) with 300. change (inject_Z 1) with 1. lra.
Qed.

(** ** Severity banding and what the dashboard shows *)

Lemma Qle_bool_false (x y : Q) : Qle_bool x y = false -> y < x.
Proof.
  intros H. apply Qnot_le_lt. intros Hle. apply Qle_bool_iff in Hle. congruence.
Qed.

Ltac bands aqi :=
  unfold leb, gtb;
  destruct (Qle_bool aqi 50) eqn:?B50; destruct (Qle_bool aqi 75) eqn:?B75;
  destruct (Qle_bool aqi 100) eqn:?B100; destruct (Qle_bool aqi 150) eqn:?B150;
  destruct (Qle_bool aqi 200) eqn:?B200;
  repeat match goal with
         | H : Qle_bool _ _ = true |- _ => apply Qle_bool_iff in H
         | H : Qle_bool _ _ = false |- _ => apply Qle_bool_false in H
         end.

Ltac band_goal :=
  repeat split; intros;
  repeat match goal with H : _ /\ _ |- _ => destruct H end;
  solve [ reflexivity | discriminate | lra | congruence ].

(** X4: the five labels partition the index values: "Bună" up to 50,
    "Moderată" above 50 up to 100, "Nesănătoasă pentru grupuri sensibile"
    above 100 up to 150, "Nesănătoasă" above 150 up to 200 and
    "Foarte nesănătoasă" above 200. *)
Theorem getAQILevel_bands (aqi : number) :
  (DataService.getAQILevel aqi = "Bună"%string <-> aqi <= 50) /\
  (DataService.getAQILevel aqi = "Moderată"%string <-> 50 < aqi /\ aqi <= 100) /\
  (DataService.getAQILevel aqi = "Nesănătoasă pentru grupuri sensibile"%string
     <-> 100 < aqi /\ aqi <= 150) /\
  (DataService.getAQILevel aqi = "Nesănătoasă"%string <-> 150 < aqi /\ aqi <= 200) /\
  (DataService.getAQILevel aqi = "Foarte nesănătoasă"%string <-> 200 < aqi).
Proof.
  unfold DataService.getAQILevel. bands aqi; band_goal.
Qed.

(** X5: colour and label always name the same band: two index values get
    the same colour exactly when they get the same label. *)
Theorem colour_and_label_name_the_same_band (a b : number) :
  DataService.getAQIColor a = DataService.getAQIColor b
  <-> DataService.getAQILevel a = DataService.getAQILevel b.
Proof.
  unfold DataService.getAQIColor, DataService.getAQILevel, leb.
  destruct (Qle_bool a 50), (Qle_bool a 100), (Qle_bool a 150), (Qle_bool a 200),
           (Qle_bool b 50), (Qle_bool b 100), (Qle_bool b 150), (Qle_bool b 200);
    split; intros H; solve [reflexivity | discriminate H].
Qed.

(** X6: the dashboard's displays agree with one another.  An alert is shown
    exactly when the air-quality card is red, exactly when the outdoor
    recommendation asks to limit intense activity, and exactly when the
    gauge's label is beyond "Moderată"; whenever an alert is shown the
    ventilation recommendation is to limit ventilation; the card is green
    exactly when the label is "Bună". *)
Theorem dashboard_displays_agree (averageAQI : number) :
  (BucharestDashboard.alerts averageAQI <> []
     <-> BucharestDashboard.cardColor averageAQI = "red"%string) /\
  (BucharestDashboard.alerts averageAQI <> []
     <-> BucharestDashboard.activityAdvice averageAQI
         = "Se recomandă limitarea activităților intense în exterior, mai ales pentru grupurile sensibile."%string) /\
  (BucharestDashboard.alerts averageAQI <> []
     <-> AQIGauge.getAQILevel averageAQI <> "Bună"%string /\
         AQIGauge.getAQILevel averageAQI <> "Moderată"%string) /\
  (BucharestDashboard.alerts averageAQI <> [] ->
     BucharestDashboard.ventilationAdvice averageAQI
     = "Limitați ventilarea când calitatea exterioară a aerului este scăzută."%string) /\
  (BucharestDashboard.cardColor averageAQI = "green"%string
     <-> AQIGauge.getAQILevel averageAQI = "Bună"%string).
Proof.
  unfold BucharestDashboard.alerts, BucharestDashboard.cardColor,
         BucharestDashboard.activityAdvice, BucharestDashboard.ventilationAdvice,
         AQIGauge.getAQILevel.
  bands averageAQI; simpl;
    repeat split; intros;
    repeat match goal with H : _ /\ _ |- _ => destruct H end;
    try solve [ reflexivity | discriminate | lra | congruence
              | exfalso; congruence ].
Qed.

(** ** The station list *)

Lemma prefix_occurs (p s : string) :
  String.prefix p s = true <-> exists after, s = (p ++ after)%string.
Proof.
  revert s. induction p as [|c p IH]; intros s.
  - split; [intros _; exists s; reflexivity | intros _; destruct s; reflexivity].
  - destruct s as [|d s]; simpl;
      [split; [discriminate | intros (a & H); discriminate]|].
    destruct (Ascii.ascii_dec c d) as [->|Hne].
    + rewrite IH. split; intros (a & H); exists a; [rewrite H; reflexivity|].
      injection H as H. exact H.
    + split; [discriminate|]. intros (a & H). injection H as H1 H2. congruence.
Qed.

Lemma includes_occurs (s needle : string) :
  includes s needle = true <-> occursIn needle s.
Proof.
  unfold occursIn. induction s as [|c s IH].
  - cbn [includes]. rewrite orb_false_r, prefix_occurs. split.
    + intros (a & H). exists EmptyString, a. exact H.
    + intros ([|d b] & a & H); [exists a; exact H | discriminate].
  - cbn [includes]. rewrite orb_true_iff, prefix_occurs, IH. split.
    + intros [(a & H) | (b & a & H)].
      * exists EmptyString, a. exact H.
      * exists (String c b), a. rewrite H. reflexivity.
    + intros ([|d b] & a & H).
      * left. exists a. exact H.
      * right. injection H as _ H. exists b, a. exact H.
Qed.

(** X7: the station filter keeps a station exactly when its county is
    "BUCURESTI" (in capitals), or its city or its name contains "bucuresti"
    once put in lower case. *)
Theorem isBucharest_spec (station : RawStation) :
  CalitateAerService.isBucharest station = true
  <-> raw_county station = "BUCURESTI"%string
      \/ (exists c, raw_city station = Some c /\ occursIn "bucuresti" (toLowerCase c))
      \/ occursIn "bucuresti" (toLowerCase (raw_name station)).
Proof.
  unfold CalitateAerService.isBucharest.
  rewrite !orb_true_iff, String.eqb_eq, includes_occurs.
  destruct (raw_city station) as [c|].
  - rewrite includes_occurs. split.
    + intros [[H | H] | H]; [left; exact H | right; left; exists c; auto | right; right; exact H].
    + intros [H | [(c' & E & H) | H]];
        [left; left; exact H | left; right; congruence | right; exact H].
  - split.
    + intros [[H | H] | H]; [left; exact H | discriminate | right; right; exact H].
    + intros [H | [(c' & E & H) | H]];
        [left; left; exact H | discriminate | right; exact H].
Qed.

(** The test of the filter, on a station of the data model. *)
Lemma getMockStations_in_Bucharest :
  Forall (fun s => county s = "BUCURESTI"%string) CalitateAerService.getMockStations.
Proof. repeat constructor. Qed.

(** X8: [getStations] never rejects, issues exactly one request and draws
    no random number.  Every station it returns, live or fallback, passes
    the Bucharest test; the live list keeps the provider's order; and the
    list is empty only when the provider answered and listed no Bucharest
    station. *)
Theorem getStations_returns_Bucharest_stations (env : Env) (w : World) :
  exists stationList,
    CalitateAerService.getStations env w
      = (Fulfilled stationList, mkWorld (requests w ++ [GetStations]) (draws w)) /\
    Forall (fun s =>
              county s = "BUCURESTI"%string
              \/ (exists c, city s = Some c /\ occursIn "bucuresti" (toLowerCase c))
              \/ occursIn "bucuresti" (toLowerCase (name s)))
           stationList /\
    match stationsApi env (List.length (requests w)) with
    | Ok raw =>
        map id stationList = map raw_id (filter CalitateAerService.isBucharest raw)
    | Failed _ => stationList = CalitateAerService.getMockStations
    end /\
    (stationList = [] ->
     exists raw, stationsApi env (List.length (requests w)) = Ok raw /\
                 filter CalitateAerService.isBucharest raw = []).
Proof.
  rewrite getStations_run. eexists. split; [reflexivity|].
  unfold stationsAt. destruct (stationsApi env _) as [raw|msg].
  - split; [|split].
    + apply Forall_forall. intros s Hin. apply in_map_iff in Hin.
      destruct Hin as (r & <- & Hr). apply filter_In in Hr. destruct Hr as [_ Hr].
      apply isBucharest_spec in Hr. exact Hr.
    + rewrite map_map. reflexivity.
    + intros H. exists raw. split; [reflexivity|].
      destruct (filter CalitateAerService.isBucharest raw); [reflexivity | discriminate].
  - split; [|split].
    + eapply Forall_impl; [|apply getMockStations_in_Bucharest].
      intros s H. left. exact H.
    + reflexivity.
    + discriminate.
Qed.

(** ** The current readings *)

Lemma currentBatch_from (env : Env) (stations : list Station) (ids : list Z) :
  forall n,
    Forall (fun s => exists data,
              In (stationId s) ids /\ s = liveSample env stations (stationId s) data)
           (filterNotNull (currentBatch env stations n ids)).
Proof.
  induction ids as [|i rest IH]; intros n; simpl.
  - constructor.
  - assert (Hrest : Forall (fun s => exists data,
                              (i = stationId s \/ In (stationId s) rest) /\
                              s = liveSample env stations (stationId s) data)
                           (filterNotNull (currentBatch env stations (S n) rest))).
    { eapply Forall_impl; [|apply IH]. intros s (data & Hin & Hs).
      exists data. split; [right; exact Hin | exact Hs]. }
    unfold currentAt. destruct (currentApi env n i) as [data|msg]; [|exact Hrest].
    constructor; [|exact Hrest].
    exists data. split; [left; reflexivity | reflexivity].
Qed.

Lemma filterNotNull_length {A} (results : list (option A)) :
  (List.length (filterNotNull results) <= List.length results)%nat.
Proof.
  induction results as [|[a|] rest IH]; simpl; lia.
Qed.

Lemma currentBatch_length (env : Env) (stations : list Station) (ids : list Z) :
  forall n, List.length (currentBatch env stations n ids) = List.length ids.
Proof.
  induction ids as [|i rest IH]; intros n; simpl; [reflexivity|].
  rewrite IH. reflexivity.
Qed.

(** X9: [getCurrentAirQuality] never rejects and never draws a random
    number, so its fallback [getMockAirQuality] never runs.  It issues the
    station-list request and then one request for each station, in station
    order; the samples are at most as many as the stations and each one
    belongs to a station of the list. *)
Theorem getCurrentAirQuality_trace (env : Env) (w : World) :
  exists stationList w1 samples,
    CalitateAerService.getStations env w = (Fulfilled stationList, w1) /\
    CalitateAerService.getCurrentAirQuality env w
      = (Fulfilled samples,
         mkWorld (requests w ++ GetStations
                    :: map GetCurrentMeasurement (map id stationList))
                 (draws w)) /\
    (List.length samples <= List.length stationList)%nat /\
    Forall (fun s => In (stationId s) (map id stationList)) samples.
Proof.
  rewrite getStations_run, getCurrentAirQuality_run.
  eexists. eexists. eexists. split; [reflexivity|]. split; [reflexivity|]. split.
  - eapply Nat.le_trans; [apply filterNotNull_length|].
    rewrite currentBatch_length, length_map. apply Nat.le_refl.
  - eapply Forall_impl; [|apply currentBatch_from].
    intros s (data & Hin & _). exact Hin.
Qed.

Lemma currentBatch_all_succeed (env : Env) (stations : list Station) (ids : list Z) :
  (forall n stationId, failed (currentApi env n stationId) = false) ->
  forall n, map stationId (filterNotNull (currentBatch env stations n ids)) = ids.
Proof.
  intros Hup. induction ids as [|i rest IH]; intros n; simpl; [reflexivity|].
  unfold currentAt. specialize (Hup n i).
  destruct (currentApi env n i) as [data|msg]; [|discriminate].
  simpl. rewrite IH. reflexivity.
Qed.

(** X10: when no per-station call fails, there is exactly one sample for
    each station of the list, in station order. *)
Theorem every_station_sampled_when_calls_succeed (env : Env) (w : World) :
  (forall n stationId, failed (currentApi env n stationId) = false) ->
  exists stationList w1 samples w2,
    CalitateAerService.getStations env w = (Fulfilled stationList, w1) /\
    CalitateAerService.getCurrentAirQuality env w = (Fulfilled samples, w2) /\
    map stationId samples = map id stationList.
Proof.
  intros Hup. rewrite getStations_run, getCurrentAirQuality_run.
  eexists. eexists. eexists. eexists.
  split; [reflexivity|]. split; [reflexivity|].
  apply currentBatch_all_succeed, Hup.
Qed.

Lemma every_station_sampled_when_calls_succeed_witness :
  exists samples w2,
    CalitateAerService.getCurrentAirQuality allUp start = (Fulfilled samples, w2) /\
    map stationId samples = [7%Z].
Proof.
  destruct (every_station_sampled_when_calls_succeed allUp start)
    as (stationList & w1 & samples & w2 & Hst & Hrun & Hids).
  - intros n i. reflexivity.
  - exists samples, w2. split; [exact Hrun|].
    rewrite Hids. vm_compute in Hst. injection Hst as <- _. reflexivity.
Defined.

Lemma find_by_id (stations : list Station) (i : Z) :
  In i (map id stations) ->
  exists st, find (fun s => Z.eqb (id s) i) stations = Some st /\
             In st stations /\ id st = i.
Proof.
  intros Hin. destruct (find (fun s => Z.eqb (id s) i) stations) as [st|] eqn:E.
  - apply find_some in E. destruct E as [Hst Hid]. apply Z.eqb_eq in Hid.
    exists st. auto.
  - apply in_map_iff in Hin. destruct Hin as (st & Hid & Hst).
    pose proof (find_none _ _ E st Hst) as Hn. simpl in Hn.
    apply Z.eqb_neq in Hn. contradiction.
Qed.

(** X11: the station name of a sample is never empty: it is the name of a
    station of the list with the sample's id, or "Unknown" when that station
    has no name. *)
Theorem sample_names_are_never_empty (env : Env) (w : World) :
  exists stationList w1 samples w2,
    CalitateAerService.getStations env w = (Fulfilled stationList, w1) /\
    CalitateAerService.getCurrentAirQuality env w = (Fulfilled samples, w2) /\
    Forall (fun s =>
              stationName s <> EmptyString /\
              exists st, In st stationList /\ id st = stationId s /\
                         stationName s = strOrElse (Some (name st)) "Unknown")
           samples.
Proof.
  rewrite getStations_run, getCurrentAirQuality_run.
  eexists. eexists. eexists. eexists.
  split; [reflexivity|]. split; [reflexivity|].
  eapply Forall_impl; [|apply currentBatch_from].
  intros s (data & Hin & Hs).
  destruct (find_by_id _ _ Hin) as (st & Hfind & Hst & Hid).
  assert (Hname : stationName s = strOrElse (Some (name st)) "Unknown").
  { rewrite Hs at 1. cbn [stationName liveSample]. rewrite Hfind. reflexivity. }
  split.
  - rewrite Hname. simpl. destruct (name st); discriminate.
  - exists st. auto.
Qed.

(** ** The weather service *)

Lemma getCurrentWeather_run (env : Env) (w : World) :
  let w1 := mkWorld (requests w ++ [GetCurrentWeather]) (draws w) in
  CopernicusService.getCurrentWeather env w
  = match currentWeatherApi env (List.length (requests w)) with
    | Ok data =>
        (Fulfilled
           {| w_timestamp := toISOString env (now env);
              temperature := rw_temperature data;
              humidity := rw_humidity data;
              windSpeed := rw_windSpeed data;
              pressure := rw_pressure data;
              uvIndex := if truthy (rw_uvIndex data)
                         then valueOf (rw_uvIndex data)
                         else random env (draws w) * 8 |},
         mkWorld (requests w ++ [GetCurrentWeather])
                 (if truthy (rw_uvIndex data) then draws w else S (draws w)))
    | Failed _ => CopernicusService.getMockWeatherData env w1
    end.
Proof.
  intros w1. unfold CopernicusService.getCurrentWeather.
  unfold try_catch, bind at 1, api_get. fold w1.
  destruct (currentWeatherApi env _) as [data|msg].
  - run. destruct (truthy (rw_uvIndex data)); reflexivity.
  - destruct (getMockWeatherData_quiet env w1) as (a & d & H). rewrite H. reflexivity.
Qed.

(** X12: when the current-weather call succeeds, temperature, humidity,
    wind speed and pressure are the provider's, and one request is issued.
    The UV index is the provider's when it is present and not zero, and no
    random number is drawn; when it is absent or zero it is replaced by a
    random draw times 8. *)
Theorem getCurrentWeather_live (env : Env) (w : World) (data : RawWeather) :
  currentWeatherApi env (List.length (requests w)) = Ok data ->
  exists sample d,
    CopernicusService.getCurrentWeather env w
      = (Fulfilled sample, mkWorld (requests w ++ [GetCurrentWeather]) d) /\
    temperature sample = rw_temperature data /\
    humidity sample = rw_humidity data /\
    windSpeed sample = rw_windSpeed data /\
    pressure sample = rw_pressure data /\
    (forall v, rw_uvIndex data = Some v -> ~ v == 0 ->
               uvIndex sample = v /\ d = draws w) /\
    (rw_uvIndex data = None \/ (exists v, rw_uvIndex data = Some v /\ v == 0) ->
     uvIndex sample = random env (draws w) * 8 /\ d = S (draws w)).
Proof.
  intros Hok. pose proof (getCurrentWeather_run env w) as Hrun. cbv zeta in Hrun.
  rewrite Hok in Hrun. rewrite Hrun. eexists. eexists.
  split; [reflexivity|]. cbn [temperature humidity windSpeed pressure uvIndex].
  repeat (split; [reflexivity|]). split.
  - intros v Hv Hnz. rewrite Hv. simpl.
    destruct (Qeq_bool v 0) eqn:E; [apply Qeq_bool_eq in E; contradiction|].
    simpl. split; reflexivity.
  - intros [Hnone | (v & Hv & Hz)].
    + rewrite Hnone. simpl. split; reflexivity.
    + rewrite Hv. simpl. rewrite (Qeq_eq_bool _ _ Hz). simpl. split; reflexivity.
Qed.

Lemma getCurrentWeather_live_witness :
  exists sample d,
    CopernicusService.getCurrentWeather allUp start
      = (Fulfilled sample, mkWorld [GetCurrentWeather] d) /\
    temperature sample = 21 /\ uvIndex sample = 3 /\ d = 0%nat.
Proof.
  destruct (getCurrentWeather_live allUp start (mkRawWeather 21 50 7 1012 (Some 3)))
    as (sample & d & Hrun & Ht & _ & _ & _ & Huv & _).
  - reflexivity.
  - destruct (Huv 3) as [Hu Hd]; [reflexivity | discriminate |].
    exists sample, d. repeat split; assumption.
Defined.

(** X13: [getHourlyForecast] never rejects and issues one request.  When
    the call succeeds the forecast is the provider's list, point by point
    and in its order, however many points it has, an absent or zero UV
    index being 0, and no random number is drawn; when the call fails the
    forecast has 24 synthetic points. *)
Theorem getHourlyForecast_live_or_24 (env : Env) (w : World) :
  exists hours d,
    CopernicusService.getHourlyForecast env w
      = (Fulfilled hours, mkWorld (requests w ++ [GetHourlyForecast]) d) /\
    match hourlyForecastApi env (List.length (requests w)) with
    | Ok items => hours = map liveHour items /\ d = draws w
    | Failed _ => List.length hours = 24%nat
    end.
Proof.
  unfold CopernicusService.getHourlyForecast.
  unfold try_catch, bind at 1, api_get.
  destruct (hourlyForecastApi env _) as [items|msg].
  - run. eexists. eexists. split; [reflexivity|]. split; reflexivity.
  - destruct (getMockHourlyData_run env
                (mkWorld (requests w ++ [GetHourlyForecast]) (draws w)))
      as (a & d & H & Hlen).
    rewrite H. exists a, d. split; [reflexivity | exact Hlen].
Qed.

(** ** The history of a station *)

(** X14: [getHistoricalAirQuality] never rejects and issues one request,
    for the station and the two dates.  When the call succeeds there is one
    point for each item of the provider, in its order and with its date,
    the index being [calculateAQI] of the item and absent PM2.5 and PM10
    being 0, and no random number is drawn; when the call fails there are
    30 synthetic points. *)
Theorem getHistoricalAirQuality_live_or_30
  (env : Env) (w : World) (stationId startDate endDate : Z) :
  exists points d,
    CalitateAerService.getHistoricalAirQuality stationId startDate endDate env w
    = (Fulfilled points,
       mkWorld (requests w ++ [GetHistoricalMeasurements stationId
                                 (isoDay env startDate) (isoDay env endDate)]) d) /\
    match historicalApi env (List.length (requests w)) stationId
            (isoDay env startDate) (isoDay env endDate) with
    | Ok items => points = map liveHistoricalPoint items /\ d = draws w
    | Failed _ => List.length points = 30%nat
    end.
Proof.
  unfold CalitateAerService.getHistoricalAirQuality.
  unfold try_catch, bind at 1, ask, bind at 1, api_get.
  destruct (historicalApi env _ _ _ _) as [items|msg].
  - unfold ret. eexists. eexists. split; [reflexivity|]. split; reflexivity.
  - match goal with
    | |- context [CalitateAerService.getMockHistoricalData env ?w1] =>
        destruct (getMockHistoricalData_run env w1) as (a & d & H & Hlen)
    end.
    rewrite H. exists a, d. split; [reflexivity | exact Hlen].
Qed.

(** X15: the history of the aggregation task is either the provider's
    items for the first station of the list the task fetched, or exactly 30
    synthetic points. *)
Theorem getHistoricalData_live_or_30 (env : Env) (w : World) :
  exists points w',
    DataService.getHistoricalData env w = (Fulfilled points, w') /\
    (List.length points = 30%nat \/
     exists first rest w1 items,
       CalitateAerService.getStations env w = (Fulfilled (first :: rest), w1) /\
       historicalApi env (List.length (requests w1)) (id first)
         (isoDay env (now env - 30 * msPerDay)) (isoDay env (now env)) = Ok items /\
       points = map liveHistoricalPoint items).
Proof.
  pose proof (getHistoricalData_run env w) as Hh. cbv zeta in Hh.
  rewrite getStations_run.
  destruct (stationsAt env _) as [|first rest]; rewrite Hh.
  - destruct (getMockHistoricalData_run env (issue GetStations w)) as (a & d & E & Hlen).
    rewrite E. exists a. eexists. split; [reflexivity | left; exact Hlen].
  - destruct (getHistoricalAirQuality_live_or_30 env (issue GetStations w) (id first)
                (now env - 30 * msPerDay)%Z (now env)) as (a & d & E & Hcase).
    rewrite E. exists a. eexists. split; [reflexivity|].
    destruct (historicalApi env _ _ _ _) as [items|msg] eqn:Eapi.
    + right. exists first, rest, (issue GetStations w), items.
      split; [reflexivity|]. split; [exact Eapi | apply Hcase].
    + left. exact Hcase.
Qed.

(** ** The values of the fallback generators *)

Lemma mapA_Forall2 {A B} (f : A -> Async B) (env : Env) (R : A -> B -> Prop) :
  (forall x w, exists y d,
      f x env w = (Fulfilled y, mkWorld (requests w) d) /\ R x y) ->
  forall xs w, exists ys d,
      mapA f xs env w = (Fulfilled ys, mkWorld (requests w) d) /\ Forall2 R xs ys.
Proof.
  intros Hf. induction xs as [|x rest IH]; intros w.
  - exists [], (draws w). destruct w. split; [reflexivity | constructor].
  - destruct (Hf x w) as (y & d & Hy & HR).
    destruct (IH (mkWorld (requests w) d)) as (ys & d' & Hys & Hall).
    exists (y :: ys), d'. simpl. unfold bind at 1. rewrite Hy.
    unfold bind at 1. rewrite Hys. unfold ret. simpl.
    split; [reflexivity | constructor; assumption].
Qed.

Lemma Forall2_right {A B} (P : B -> Prop) (xs : list A) (ys : list B) :
  Forall2 (fun _ y => P y) xs ys -> Forall P ys.
Proof. induction 1; constructor; assumption. Qed.

Lemma scaled_floor (r : number) (n k : Z) :
  0 <= r -> r < 1 -> (0 < n)%Z ->
  integerBetween k (k + n - 1) (Math_floor (r * inject_Z n) + inject_Z k).
Proof.
  intros H0 H1 Hn. exists (Qfloor (r * inject_Z n) + k)%Z. split.
  - unfold Math_floor, inject_Z, Qplus. simpl. rewrite !Z.mul_1_r. reflexivity.
  - assert (Hn' : 0 < inject_Z n) by (rewrite Zlt_Qlt in Hn; exact Hn).
    assert (Hlo : (0 <= Qfloor (r * inject_Z n))%Z).
    { rewrite <- (Qfloor_Z 0). apply Qfloor_resp_le.
      apply Qmult_le_0_compat; [exact H0 | apply Qlt_le_weak, Hn']. }
    assert (Hhi : (Qfloor (r * inject_Z n) < n)%Z).
    { rewrite Zlt_Qlt. eapply Qle_lt_trans; [apply Qfloor_le|].
      setoid_replace (inject_Z n) with (1 * inject_Z n) at 2 by ring.
      apply Qmult_lt_compat_r; assumption. }
    lia.
Qed.

Lemma integerBetween_bounds (lo hi : Z) (x : number) :
  integerBetween lo hi x -> inject_Z lo <= x /\ x <= inject_Z hi.
Proof.
  intros (z & -> & Hlo & Hhi). rewrite <- !Zle_Qle. split; assumption.
Qed.

Ltac by_references :=
  unfold Qdiv;
  change (/ (354 # 10)) with (10 # 354);
  change (/ 154) with (1 # 154);
  change (/ 100) with (1 # 100).

(** The index of a reading whose PM2.5, PM10 and NO2 are in the ranges of
    the fallback generator. *)
Lemma index_of_fallback_reading (m : AirQualityMeasurement) :
  10 <= pm25 m -> pm25 m <= 59 -> pm10 m <= 99 -> no2 m <= 74 ->
  28 <= CalitateAerService.calculateAQI (ofMeasurement m) /\
  CalitateAerService.calculateAQI (ofMeasurement m) <= 167.
Proof.
  intros H1 H2 H3 H4. rewrite calculateAQI_typed.
  apply (Math_round_bounds (maxSubIndex m) 28 167).
  - change (inject_Z 28) with 28. unfold maxSubIndex, subIndex.
    eapply Qle_trans; [|apply Q.le_max_l]. eapply Qle_trans; [|apply Q.le_max_l].
    apply Q.min_glb; [|lra]. by_references. lra.
  - change (inject_Z 167) with 167. unfold maxSubIndex, subIndex.
    repeat apply Q.max_lub; (eapply Qle_trans; [apply Q.le_min_l|]);
      by_references; lra.
Qed.

(** X16: with [Math.random()] in its range, [getMockAirQuality] resolves to
    five samples whose values are integers in fixed ranges (PM2.5 10..59,
    PM10 20..99, NO2 15..74, O3 30..149, SO2 5..34, CO 2..11, index
    25..174), so that every concentration is positive; and feeding such a
    reading to [calculateAQI] gives an index between 28 and 167. *)
Theorem getMockAirQuality_ranges (env : Env) (w : World) :
  randomInRange env ->
  exists samples w',
    CalitateAerService.getMockAirQuality env w = (Fulfilled samples, w') /\
    List.length samples = 5%nat /\
    Forall (fun s =>
              integerBetween 10 59 (pm25 (measurements s)) /\
              integerBetween 20 99 (pm10 (measurements s)) /\
              integerBetween 15 74 (no2 (measurements s)) /\
              integerBetween 30 149 (o3 (measurements s)) /\
              integerBetween 5 34 (so2 (measurements s)) /\
              integerBetween 2 11 (co (measurements s)) /\
              integerBetween 25 174 (aqi s) /\
              28 <= CalitateAerService.calculateAQI (ofMeasurement (measurements s)) /\
              CalitateAerService.calculateAQI (ofMeasurement (measurements s)) <= 167)
           samples.
Proof.
  intros Hr. rewrite getMockAirQuality_run. eexists. eexists.
  split; [reflexivity|]. split; [reflexivity|].
  assert (Hone : forall st d,
             let s := mockSampleAt st env d in
             integerBetween 10 59 (pm25 (measurements s)) /\
             integerBetween 20 99 (pm10 (measurements s)) /\
             integerBetween 15 74 (no2 (measurements s)) /\
             integerBetween 30 149 (o3 (measurements s)) /\
             integerBetween 5 34 (so2 (measurements s)) /\
             integerBetween 2 11 (co (measurements s)) /\
             integerBetween 25 174 (aqi s) /\
             28 <= CalitateAerService.calculateAQI (ofMeasurement (measurements s)) /\
             CalitateAerService.calculateAQI (ofMeasurement (measurements s)) <= 167).
  { intros st d s.
    assert (P25 : integerBetween 10 59 (pm25 (measurements s)))
      by (apply (scaled_floor _ 50 10); [apply Hr | apply Hr | lia]).
    assert (P10 : integerBetween 20 99 (pm10 (measurements s)))
      by (apply (scaled_floor _ 80 20); [apply Hr | apply Hr | lia]).
    assert (Pno2 : integerBetween 15 74 (no2 (measurements s)))
      by (apply (scaled_floor _ 60 15); [apply Hr | apply Hr | lia]).
    repeat (split; [first [assumption
                          | apply (scaled_floor _ 120 30); [apply Hr | apply Hr | lia]
                          | apply (scaled_floor _ 30 5); [apply Hr | apply Hr | lia]
                          | apply (scaled_floor _ 10 2); [apply Hr | apply Hr | lia]
                          | apply (scaled_floor _ 150 25); [apply Hr | apply Hr | lia] ]|]).
    apply integerBetween_bounds in P25, P10, Pno2.
    change (inject_Z 10) with 10 in P25. change (inject_Z 59) with 59 in P25.
    change (inject_Z 99) with 99 in P10. change (inject_Z 74) with 74 in Pno2.
    apply index_of_fallback_reading; tauto. }
  generalize (draws w). generalize CalitateAerService.getMockStations.
  induction l as [|st rest IH]; intros d; simpl; constructor.
  - apply Hone.
  - apply IH.
Qed.

Lemma allDown_randomInRange : randomInRange allDown.
Proof. intros i. simpl. split; lra. Qed.

Lemma allDown_sineInRange : sineInRange allDown.
Proof. intros x. simpl. split; lra. Qed.

Lemma getMockAirQuality_ranges_witness :
  exists samples w',
    CalitateAerService.getMockAirQuality allDown start = (Fulfilled samples, w') /\
    List.length samples = 5%nat.
Proof.
  destruct (getMockAirQuality_ranges allDown start) as (samples & w' & Hrun & Hlen & _).
  - intros i. simpl. split; lra.
  - exists samples, w'. split; assumption.
Defined.




(** X18: with [Math.random()] and [Math.sin] in their ranges, the 30
    synthetic historical points have an index from 20 to 100, PM2.5 from 5
    to 45 and PM10 from 15 to 70, hence no negative value, and no
    temperature. *)
Theorem getMockHistoricalData_ranges (env : Env) (w : World) :
  randomInRange env -> sineInRange env ->
  exists points d,
    CalitateAerService.getMockHistoricalData env w
      = (Fulfilled points, mkWorld (requests w) d) /\
    List.length points = 30%nat /\
    Forall (fun p =>
              20 <= h_aqi p /\ h_aqi p < 100 /\
              5 <= h_pm25 p /\ h_pm25 p < 45 /\
              15 <= h_pm10 p /\ h_pm10 p < 70 /\
              h_temperature p = None)
           points.
Proof.
  intros Hr Hs.
  destruct (mapA_Forall2 CalitateAerService.mockHistoricalPoint env
              (fun _ p =>
                 20 <= h_aqi p /\ h_aqi p < 100 /\
                 5 <= h_pm25 p /\ h_pm25 p < 45 /\
                 15 <= h_pm10 p /\ h_pm10 p < 70 /\
                 h_temperature p = None)) with (xs := indices 30) (w := w)
    as (points & d & Hrun & Hall).
  { intros i w0. eexists. eexists. split.
    - unfold CalitateAerService.mockHistoricalPoint. run. reflexivity.
    - simpl.
      pose proof (Hs (ofNat i * (2 # 10))) as [S1 S1'].
      pose proof (Hs (ofNat i * (3 # 10))) as [S2 S2'].
      pose proof (Hs (ofNat i * (25 # 100))) as [S3 S3'].
      pose proof (Hr (draws w0)) as [R1 R1'].
      pose proof (Hr (S (draws w0))) as [R2 R2'].
      pose proof (Hr (S (S (draws w0)))) as [R3 R3'].
      repeat split; lra. }
  exists points, d. split; [exact Hrun|]. split.
  - apply Forall2_length in Hall. rewrite <- Hall. reflexivity.
  - eapply Forall2_right, Hall.
Qed.

Lemma getMockHistoricalData_ranges_witness :
  exists points d,
    CalitateAerService.getMockHistoricalData allDown start
      = (Fulfilled points, mkWorld [] d) /\
    List.length points = 30%nat.
Proof.
  destruct (getMockHistoricalData_ranges allDown start)
    as (points & d & Hrun & Hlen & _).
  - intros i. simpl. split; lra.
  - intros x. simpl. split; lra.
  - exists points, d. split; assumption.
Defined.

(** ** The climate history *)


(** X20: with [Math.random()] and [Math.sin] in their ranges, the 30
    synthetic climate points have a temperature from 5 to 30. *)
Theorem getMockHistoricalWeather_ranges (env : Env) (w : World) :
  randomInRange env -> sineInRange env ->
  exists points d,
    CopernicusService.getMockHistoricalWeather env w
      = (Fulfilled points, mkWorld (requests w) d) /\
    List.length points = 30%nat /\
    Forall (fun p => exists t, h_temperature p = Some t /\ 5 <= t /\ t < 30) points.
Proof.
  intros Hr Hs.
  destruct (mapA_Forall2 CopernicusService.mockClimatePoint env
              (fun _ p => exists t, h_temperature p = Some t /\ 5 <= t /\ t < 30))
    with (xs := indices 30) (w := w) as (points & d & Hrun & Hall).
  { intros i w0. eexists. eexists. split.
    - unfold CopernicusService.mockClimatePoint. run. reflexivity.
    - simpl. eexists. split; [reflexivity|].
      pose proof (Hs (ofNat i * (2 # 10))) as [S1 S1'].
      pose proof (Hr (draws w0)) as [R1 R1'].
      split; lra. }
  exists points, d. split; [exact Hrun|]. split.
  - apply Forall2_length in Hall. rewrite <- Hall. reflexivity.
  - eapply Forall2_right, Hall.
Qed.

Lemma getMockHistoricalWeather_ranges_witness :
  exists points d,
    CopernicusService.getMockHistoricalWeather allDown start
      = (Fulfilled points, mkWorld [] d) /\
    List.length points = 30%nat.
Proof.
  destruct (getMockHistoricalWeather_ranges allDown start)
    as (points & d & Hrun & Hlen & _).
  - intros i. simpl. split; lra.
  - intros x. simpl. split; lra.
  - exists points, d. split; assumption.
Defined.

(** ** The aggregation as a whole *)




(** X22: the fields of the aggregate fall back one by one.  Whatever the
    other calls do, the current weather is the provider's when the
    current-weather call succeeds, the forecast is the provider's when the
    forecast call succeeds and has 24 points when it fails, and the station
    list is the provider's Bucharest stations when the station-list call
    succeeds and the five fallback stations when it fails. *)
Theorem fields_fall_back_independently (env : Env) (w : World) :
  exists d w',
    DataService.getAllDashboardData env w = (Fulfilled d, w') /\
    (forall data, (forall n, currentWeatherApi env n = Ok data) ->
       temperature (DataService.current (DataService.weather d)) = rw_temperature data /\
       humidity (DataService.current (DataService.weather d)) = rw_humidity data /\
       windSpeed (DataService.current (DataService.weather d)) = rw_windSpeed data /\
       pressure (DataService.current (DataService.weather d)) = rw_pressure data) /\
    (forall items, (forall n, hourlyForecastApi env n = Ok items) ->
       DataService.hourly (DataService.weather d) = map liveHour items) /\
    ((forall n, failed (hourlyForecastApi env n) = true) ->
       List.length (DataService.hourly (DataService.weather d)) = 24%nat) /\
    (forall raw, (forall n, stationsApi env n = Ok raw) ->
       DataService.stations d
       = map (CalitateAerService.toStation env)
             (filter CalitateAerService.isBucharest raw)) /\
    ((forall n, failed (stationsApi env n) = true) ->
       DataService.stations d = CalitateAerService.getMockStations).
Proof.
  destruct (getAllDashboardData_run env w)
    as (samples & w1 & cw & w2 & hf & w3 & sts & w4 & points & w5
        & H1 & H2 & H3 & H4 & H5 & Hrun).
  rewrite Hrun. eexists. eexists. split; [reflexivity|].
  cbn [DataService.weather DataService.current DataService.hourly DataService.stations].
  rewrite getStations_run in H4. injection H4 as Hsts _.
  destruct (getHourlyForecast_live_or_24 env w2) as (a3 & d3 & E3 & Hcase).
  rewrite E3 in H3. injection H3 as Hhf _. subst a3.
  split; [|split; [|split; [|split]]].
  - intros data Hok.
    destruct (getCurrentWeather_live env w1 data (Hok _))
      as (s & d & E & Ht & Hh & Hws & Hp & _).
    rewrite E in H2. injection H2 as Hcw _. subst s. auto.
  - intros items Hok. rewrite (Hok _) in Hcase. apply Hcase.
  - intros Hdown. specialize (Hdown (List.length (requests w2))).
    destruct (hourlyForecastApi env _); [discriminate | exact Hcase].
  - intros raw Hok. rewrite <- Hsts. unfold stationsAt. rewrite (Hok _). reflexivity.
  - intros Hdown. rewrite <- Hsts. apply stationsAt_failed, Hdown.
Qed.

Lemma ofNat_S (n : nat) : ofNat (S n) == ofNat n + 1.
Proof.
  unfold ofNat. rewrite Nat2Z.inj_succ, <- Z.add_1_r, inject_Z_plus. reflexivity.
Qed.

Lemma total_le (xs : list number) (c : number) :
  Forall (fun x => x <= c) xs -> total xs <= ofNat (List.length xs) * c.
Proof.
  unfold number in *. induction 1 as [|x xs Hx _ IH].
  - change (0 <= 0 * c). rewrite Qmult_0_l. apply Qle_refl.
  - cbn [total fold_right List.length]. fold (total xs).
    rewrite ofNat_S, Qmult_plus_distr_l, Qmult_1_l.
    rewrite (Qplus_comm (ofNat (List.length xs) * c) c).
    apply Qplus_le_compat; assumption.
Qed.

Lemma total_ge (xs : list number) (c : number) :
  Forall (fun x => c <= x) xs -> ofNat (List.length xs) * c <= total xs.
Proof.
  unfold number in *. induction 1 as [|x xs Hx _ IH].
  - change (0 * c <= 0). rewrite Qmult_0_l. apply Qle_refl.
  - cbn [total fold_right List.length]. fold (total xs).
    rewrite ofNat_S, Qmult_plus_distr_l, Qmult_1_l.
    rewrite (Qplus_comm (ofNat (List.length xs) * c) c).
    apply Qplus_le_compat; assumption.
Qed.

Lemma ofNat_positive (n : nat) : 0 < ofNat (S n).
Proof.
  unfold ofNat. change 0 with (inject_Z 0). rewrite <- Zlt_Qlt. lia.
Qed.

Lemma arithmeticMean_le (xs : list number) (hi : number) :
  xs <> [] -> Forall (fun x => x <= hi) xs -> arithmeticMean xs <= hi.
Proof.
  intros Hne Hhi. destruct xs as [|x xs]; [contradiction|].
  unfold arithmeticMean.
  pose proof (ofNat_positive (List.length xs)) as Hpos.
  pose proof (total_le _ _ Hhi) as Thi.
  change (List.length (x :: xs)) with (S (List.length xs)) in *.
  apply Qle_shift_div_r; [exact Hpos|]. rewrite Qmult_comm. exact Thi.
Qed.

Lemma arithmeticMean_ge (xs : list number) (lo : number) :
  xs <> [] -> Forall (fun x => lo <= x) xs -> lo <= arithmeticMean xs.
Proof.
  intros Hne Hlo. destruct xs as [|x xs]; [contradiction|].
  unfold arithmeticMean.
  pose proof (ofNat_positive (List.length xs)) as Hpos.
  pose proof (total_ge _ _ Hlo) as Tlo.
  change (List.length (x :: xs)) with (S (List.length xs)) in *.
  apply Qle_shift_div_l; [exact Hpos|]. rewrite Qmult_comm. exact Tlo.
Qed.





(** ** The two mean computations *)

Lemma reduce_as_fold {A} (f : A -> number) (l : list A) (acc : number) :
  fold_left (fun sum x => sum + f x) l acc = fold_left Qplus (map f l) acc.
Proof.
  revert acc. induction l as [|x l IH]; intros acc; simpl; [reflexivity | apply IH].
Qed.

(** X25: the mean of the data service and the mean of the dashboard agree
    on lists that carry the same indices. *)
Theorem two_means_agree
  (samples : list AirQualityData) (shown : list BucharestDashboard.AirQualityStation) :
  map aqi samples = map BucharestDashboard.aqi shown ->
  DataService.calculateAverageAQI samples = BucharestDashboard.averageAQI shown.
Proof.
  intros H.
  assert (Hlen : List.length samples = List.length shown).
  { rewrite <- (length_map aqi samples), H, length_map. reflexivity. }
  unfold DataService.calculateAverageAQI, BucharestDashboard.averageAQI.
  rewrite (reduce_as_fold aqi samples), (reduce_as_fold BucharestDashboard.aqi shown).
  rewrite H, Hlen.
  destruct (List.length shown); reflexivity.
Qed.

Lemma two_means_agree_witness :
  DataService.calculateAverageAQI
    [ mkAirQualityData 1 "Calea Plevnei" "t" (mkMeasurement 10 20 15 30 5 2) 28;
      mkAirQualityData 2 "Titan" "t" (mkMeasurement 40 90 55 0 0 0) 113 ]
  = BucharestDashboard.averageAQI
      [ BucharestDashboard.mkAirQualityStation "Calea Plevnei" 10 20 15 30 5 28;
        BucharestDashboard.mkAirQualityStation "Titan" 40 90 55 0 0 113 ].
Proof.
  apply two_means_agree. reflexivity.
Defined.

(** ** The data the dashboard generates for itself *)

Lemma averageAQI_mean (shown : list BucharestDashboard.AirQualityStation) :
  BucharestDashboard.averageAQI shown
  == arithmeticMean (map BucharestDashboard.aqi shown).
Proof.
  unfold BucharestDashboard.averageAQI, arithmeticMean.
  destruct shown as [|s l]; [reflexivity|].
  cbn [List.length Nat.ltb Nat.leb map].
  rewrite reduce_sum. rewrite Qplus_0_l. rewrite length_map. reflexivity.
Qed.

Lemma Math_round_integerBetween (x : number) (lo hi : Z) :
  inject_Z lo <= x -> x <= inject_Z hi -> integerBetween lo hi (Math_round x).
Proof.
  intros Hlo Hhi. destruct (Math_round_bounds x lo hi Hlo Hhi) as [B1 B2].
  unfold Math_round in *. eexists. split; [reflexivity|].
  rewrite <- !Zle_Qle in B1, B2. split; assumption.
Qed.

(** X26: with [Math.random()] in its range, the dashboard generates five
    stations whose index is an integer from 25 to 174; the mean index it
    shows is therefore between 25 and 174, the gauge's cap at 300 leaves it
    unchanged, and the number printed under the gauge is an integer from 25
    to 174. *)
Theorem generated_mean_index_range (env : Env) (w : World) :
  randomInRange env ->
  exists data w',
    BucharestDashboard.generateAirQualityData env w = (Fulfilled data, w') /\
    List.length data = 5%nat /\
    Forall (fun s => integerBetween 25 174 (BucharestDashboard.aqi s)) data /\
    25 <= BucharestDashboard.averageAQI data /\
    BucharestDashboard.averageAQI data <= 174 /\
    AQIGauge.barValue (BucharestDashboard.averageAQI data)
      == BucharestDashboard.averageAQI data /\
    integerBetween 25 174 (AQIGauge.printedValue (BucharestDashboard.averageAQI data)).
Proof.
  intros Hr.
  destruct (mapA_Forall2 BucharestDashboard.generateStation env
              (fun _ s => integerBetween 25 174 (BucharestDashboard.aqi s)))
    with (xs := ["Calea Plevnei"; "Drumul Taberei"; "Berceni"; "Titan"; "Ambasada"]%string)
         (w := w) as (data & d & Hrun & Hall).
  { intros name w0. eexists. eexists. split.
    - unfold BucharestDashboard.generateStation. run. reflexivity.
    - simpl. apply (scaled_floor _ 150 25); [apply Hr | apply Hr | lia]. }
  exists data. eexists. split; [exact Hrun|].
  assert (Hlen : List.length data = 5%nat).
  { apply Forall2_length in Hall. rewrite <- Hall. reflexivity. }
  apply Forall2_right in Hall.
  assert (Hne : map BucharestDashboard.aqi data <> []).
  { destruct data; [discriminate Hlen | discriminate]. }
  assert (Hlo : 25 <= BucharestDashboard.averageAQI data).
  { rewrite averageAQI_mean. apply arithmeticMean_ge; [exact Hne|].
    apply Forall_forall. intros x Hin. apply in_map_iff in Hin.
    destruct Hin as (s & <- & Hin). rewrite Forall_forall in Hall.
    specialize (Hall s Hin). apply integerBetween_bounds in Hall. apply Hall. }
  assert (Hhi : BucharestDashboard.averageAQI data <= 174).
  { rewrite averageAQI_mean. apply arithmeticMean_le; [exact Hne|].
    apply Forall_forall. intros x Hin. apply in_map_iff in Hin.
    destruct Hin as (s & <- & Hin). rewrite Forall_forall in Hall.
    specialize (Hall s Hin). apply integerBetween_bounds in Hall. apply Hall. }
  repeat (split; [assumption|]). split.
  - unfold AQIGauge.barValue, Math_min. apply Q.min_l. lra.
  - apply Math_round_integerBetween; assumption.
Qed.

Lemma generated_mean_index_range_witness :
  exists data w',
    BucharestDashboard.generateAirQualityData allDown start = (Fulfilled data, w') /\
    25 <= BucharestDashboard.averageAQI data /\
    BucharestDashboard.averageAQI data <= 174.
Proof.
  destruct (generated_mean_index_range allDown start)
    as (data & w' & Hrun & _ & _ & Hlo & Hhi & _).
  - intros i. simpl. split; lra.
  - exists data, w'. repeat split; assumption.
Defined.




(** X28: the current weather of the dashboard is the last point of the
    weather data, and the default (20 degrees, 65 percent) when there is
    none; a temperature of exactly 0 is shown as 20 and a humidity of
    exactly 0 as 65, any other value being rounded to the nearest
    integer. *)
Theorem current_weather_and_its_cards
  (earlier : list BucharestDashboard.WeatherDataPoint)
  (latest : BucharestDashboard.WeatherDataPoint)
  (shown : BucharestDashboard.CurrentWeather) :
  BucharestDashboard.currentWeather (earlier ++ [latest])
    = BucharestDashboard.ofPoint latest /\
  BucharestDashboard.currentWeather [] = BucharestDashboard.defaultWeather /\
  BucharestDashboard.shownTemperature (BucharestDashboard.currentWeather []) = 20 /\
  BucharestDashboard.shownHumidity (BucharestDashboard.currentWeather []) = 65 /\
  BucharestDashboard.shownTemperature shown
    = (if Qeq_bool (BucharestDashboard.cw_temperature shown) 0 then 20
       else Math_round (BucharestDashboard.cw_temperature shown)) /\
  BucharestDashboard.shownHumidity shown
    = (if Qeq_bool (BucharestDashboard.cw_humidity shown) 0 then 65
       else Math_round (BucharestDashboard.cw_humidity shown)).
Proof.
  split; [|split; [reflexivity|split; [reflexivity|split; [reflexivity|]]]].
  - unfold BucharestDashboard.currentWeather.
    rewrite length_app. cbn [List.length]. rewrite Nat.add_1_r.
    cbn [Nat.ltb Nat.leb]. rewrite Nat.sub_succ, Nat.sub_0_r.
    rewrite nth_error_app2, Nat.sub_diag; [reflexivity | apply Nat.le_refl].
  - unfold BucharestDashboard.shownTemperature, BucharestDashboard.shownHumidity, orElse.
    split.
    + destruct (Qeq_bool (BucharestDashboard.cw_temperature shown) 0); reflexivity.
    + destruct (Qeq_bool (BucharestDashboard.cw_humidity shown) 0); reflexivity.
Qed.
